(** * hydrodata: station resolution and watershed derivation

    A shallow embedding of [hydrodata/hydrodata.py] (class [Station]):
    [get_coords], [get_id], [get_watershed] and [__init__], with the
    collaborators the module calls but does not define (the HTTP session,
    Python's [float] and [pd.to_datetime], shapely's [nearest_points], the
    [NLDI] client of [hydrodata.datasets], the file system) taken as an
    environment.

    Numbers.  Python floats are IEEE binary64 numbers and are modelled by
    Rocq's primitive floats, so that [float(alt_va) * 0.3048] is the very
    multiplication the interpreter performs.  Planar distance is the exact
    distance between the rationals that two floats denote.  Catchment areas
    are exact rationals: the order in which pandas adds a column is not
    fixed, and the drainage area is about which rows are added.

    Effects.  [get_coords] and [get_id] only read the answer of the site
    service and are functions into [result].  [get_watershed] and [__init__]
    run in a state and exception monad over a [World]: directories, geometry
    files, what was printed and which members of the NLDI client were
    evaluated. *)

From Stdlib Require Import Floats ZArith QArith Qabs Qcanon String Ascii List Lia
  Sorted.
From stdpp Require Import base option list strings gmap fin_maps fin_sets.

Set Warnings "-inexact-float".
Local Open Scope string_scope.
Local Open Scope list_scope.

(** ** Exceptions and fallible computations *)

(** The exception classes that the module itself raises or that reach it from
    the calls it makes. *)
Inductive exn : Set :=
| RuntimeError | NameError | IndexError | KeyError | AttributeError
| ValueError | TypeError | OSError | HTTPError | ConnectionError
| Timeout | RequestException | DriverError.

Inductive result (A : Type) : Type :=
| Ok (a : A)
| Raise (e : exn).
Arguments Ok {A} a.
Arguments Raise {A} e.

Definition rbind {A B} (m : result A) (k : A -> result B) : result B :=
  match m with
  | Ok a => k a
  | Raise e => Raise e
  end.

Notation "'let*' x ':=' m 'in' k" := (rbind m (fun x => k))
  (at level 10, x pattern, m at level 100, k at level 200).

Definition is_ok {A} (r : result A) : bool :=
  match r with Ok _ => true | Raise _ => false end.

Definition raises {A} (r : result A) : Prop :=
  exists e, r = Raise e.

(** [l[i]]: indexing a Python list raises [IndexError] out of range. *)
Definition getitem {A} (l : list A) (i : nat) : result A :=
  match l !! i with
  | Some a => Ok a
  | None => Raise IndexError
  end.

Fixpoint mapM {A B} (f : A -> result B) (l : list A) : result (list B) :=
  match l with
  | [] => Ok []
  | a :: l' =>
      let* b := f a in
      let* bs := mapM f l' in
      Ok (b :: bs)
  end.

(** ** Text of an RDB response *)

Definition LF : ascii := ascii_of_nat 10.
Definition TAB : ascii := ascii_of_nat 9.

(** [s.split(sep)] for a one-character separator: never the empty list. *)
Fixpoint split (sep : ascii) (s : string) : list string :=
  match s with
  | EmptyString => [EmptyString]
  | String c s' =>
      if Ascii.eqb c sep then EmptyString :: split sep s'
      else match split sep s' with
           | h :: t => String c h :: t
           | [] => [String c EmptyString]
           end
  end.

(** [c in s] for a one-character needle. *)
Fixpoint contains (c : ascii) (s : string) : bool :=
  match s with
  | EmptyString => false
  | String c' s' => Ascii.eqb c' c || contains c s'
  end.

(** [[l.split("\t") for l in r_text if "#" not in l]] *)
Definition rdb_rows (text : string) : list (list string) :=
  split TAB <$> List.filter (fun l => negb (contains "#"%char l)) (split LF text).

(** [zip(a, b)] stops at the shorter list. *)
Fixpoint zip {A B} (a : list A) (b : list B) : list (A * B) :=
  match a, b with
  | x :: a', y :: b' => (x, y) :: zip a' b'
  | _, _ => []
  end.

(** [dict(pairs)] when only lookups follow: a later pair overrides an earlier
    one with the same key. *)
Definition dict_of {V} (kvs : list (string * V)) : gmap string V :=
  list_to_map (reverse kvs).

(** [d[k]] raises [KeyError] on a missing key. *)
Definition dict_get {V} (d : gmap string V) (k : string) : result V :=
  match d !! k with
  | Some v => Ok v
  | None => Raise KeyError
  end.

(** An insertion-ordered [dict]: setting a present key keeps its position and
    replaces its value. *)
Fixpoint odict_set {V} (d : list (string * V)) (k : string) (v : V)
  : list (string * V) :=
  match d with
  | [] => [(k, v)]
  | (k', v') :: d' =>
      if String.eqb k' k then (k', v) :: d'
      else (k', v') :: odict_set d' k v
  end.

Definition odict {V} (kvs : list (string * V)) : list (string * V) :=
  fold_left (fun d kv => odict_set d kv.1 kv.2) kvs [].

(** ** A small model of the pandas frame used by [get_id] *)

(** A cell is a string as read from the service or a float after [astype];
    a column that a record lacks reads as the float [nan], as in pandas. *)
Inductive cell : Set :=
| Str (s : string)
| Num (f : float).

Record DataFrame := {
  columns : gset string;
  records : list (gmap string cell)
}.

Definition cell_at (r : gmap string cell) (c : string) : cell :=
  default (Num nan) (r !! c).

(** [pd.DataFrame.from_dict(list_of_dicts)]: the columns are the union of the
    keys. *)
Definition from_dict (ds : list (gmap string string)) : DataFrame :=
  {| columns := ⋃ (dom <$> ds);
     records := (fun d : gmap string string => Str <$> d) <$> ds |}.

(** [df.dropna()]: a record is kept when no column is missing in it. *)
Definition dropna (df : DataFrame) : DataFrame :=
  {| columns := columns df;
     records := filter (fun r => columns df ⊆ dom r) (records df) |}.

(** [df.c] *)
Definition getattr (df : DataFrame) (c : string) : result (list cell) :=
  if decide (c ∈ columns df) then Ok ((fun r => cell_at r c) <$> records df)
  else Raise AttributeError.

(** [df[c]], [df[[c1; ..; cn]]] *)
Definition getcol (df : DataFrame) (c : string) : result (list cell) :=
  if decide (c ∈ columns df) then Ok ((fun r => cell_at r c) <$> records df)
  else Raise KeyError.

Definition check_cols (df : DataFrame) (cs : list string) : result unit :=
  if decide (Forall (fun c => c ∈ columns df) cs) then Ok tt else Raise KeyError.

(** [cell == s] *)
Definition cell_eq_str (c : cell) (s : string) : bool :=
  match c with
  | Str s' => String.eqb s' s
  | Num _ => false
  end.

(** [df.drop(df[df.c == s].index)]: the index of [df] is the unique row
    numbering given by [from_dict], so exactly the rows with [c == s] go. *)
Definition drop_where_eq (df : DataFrame) (c s : string) : result DataFrame :=
  let* _ := getattr df c in
  Ok {| columns := columns df;
        records := List.filter (fun r => negb (cell_eq_str (cell_at r c) s))
                     (records df) |}.

(** [df[df.c == s]] *)
Definition where_eq (df : DataFrame) (c s : string) : result DataFrame :=
  let* _ := getattr df c in
  Ok {| columns := columns df;
        records := List.filter (fun r => cell_eq_str (cell_at r c) s) (records df) |}.

(** ** Collaborators *)

(** A point geometry: [(x, y)] = (longitude, latitude). *)
Abbreviation Point := (float * float)%type (only parsing).

(** The two queries sent to [https://waterservices.usgs.gov/nwis/site]; both
    carry [format=rdb] and [hasDataTypeCd=dv].  The box is kept as its four
    bounds, before they are printed with six decimals. *)
Inductive site_query : Set :=
| Sites (sites : string)
| BBox (west south east north : float).

(** Reach identifiers of the flow network. *)
Abbreviation comid := Z (only parsing).

Inductive navigation : Set := upstreamTributaries | upstreamMain.

Inductive geometry : Set :=
| Polygon (rings : list (list Point))
| MultiPolygon (polygons : list (list (list Point))).

(** A series of geometries: what [NLDI.basin] returns ([geom.values[0]] is
    its first geometry) and the geometry column of the frame read from a
    GeoPackage file ([gdf.geometry]). *)
Abbreviation GeoSeries := (list geometry) (only parsing).

(** The [NLDI] client of [hydrodata.datasets], one object per station: the
    members [get_watershed] uses.  [get_river_network] returns a frame indexed
    by reach id, of which only the index is read; [get_nhdplus_byid] returns a
    frame with one row per reach, of which only [areasqkm] is read.  Areas are
    exact rationals. *)
Record NLDI := {
  nldi_comid : result comid;
  get_river_network : navigation -> result (list comid);
  get_nhdplus_byid : list comid -> result (list (comid * Qc));
  basin : result GeoSeries
}.

Record Env := {
  (** [float(s)] and [astype("float")]: [None] is [ValueError]. *)
  py_float : string -> option float;
  (** [pd.to_datetime]: the timestamp as days, [None] when it does not parse. *)
  to_datetime : string -> option Z;
  (** [self.session.get(url, params=payload).text] *)
  session_get : site_query -> result string;
  (** [shapely.ops.nearest_points(point, multipoint)[1]] *)
  nearest_points : Point -> list Point -> result Point;
  (** [NLDI(station_id=...)] *)
  nldi : string -> NLDI
}.

(** ** Unit conversion *)

(** [x * 0.3048  # convert ft to meter] *)
Definition ft_to_m (x : float) : float := (x * 0.3048)%float.

(** ** Station resolution *)

(** The attributes that [get_coords] and [get_id] assign to [self]. *)
Record StationInfo := {
  station_id : string;
  coords : float * float;
  altitude : float;
  datum : string;
  name : string
}.

(** [float(x)] *)
Definition float_of (env : Env) (c : cell) : result float :=
  match c with
  | Num f => Ok f
  | Str s => match py_float env s with Some f => Ok f | None => Raise ValueError end
  end.

(** A cell used where a string is expected, and where a number is. *)
Definition str_of (c : cell) : result string :=
  match c with Str s => Ok s | Num _ => Raise TypeError end.

Definition num_of (c : cell) : result float :=
  match c with Num f => Ok f | Str _ => Raise TypeError end.

Definition get_coords (env : Env) (sid : string) : result StationInfo :=
  (* try: r = self.session.get(...)  except HTTPError or ...: raise *)
  let* text := session_get env (Sites sid) in
  let r_list := rdb_rows text in
  let* header := getitem r_list 0 in
  let* row := getitem r_list 2 in
  let station := dict_of (zip header row) in
  let* lon_s := dict_get station "dec_long_va" in
  let* lon := float_of env (Str lon_s) in
  let* lat_s := dict_get station "dec_lat_va" in
  let* lat := float_of env (Str lat_s) in
  let* alt_s := dict_get station "alt_va" in
  let* alt := float_of env (Str alt_s) in
  let* datum := dict_get station "alt_datum_cd" in
  let* name := dict_get station "station_nm" in
  Ok {| station_id := sid; coords := (lon, lat); altitude := ft_to_m alt;
        datum := datum; name := name |}.

(** [df[cs] = df[cs].astype("float")] *)
Definition astype_rec (env : Env) (cs : list string) (r : gmap string cell)
  : result (gmap string cell) :=
  foldr (fun c acc =>
           let* r' := acc in
           let* f := float_of env (cell_at r' c) in
           Ok (<[c := Num f]> r'))
        (Ok r) cs.

Definition astype_float (env : Env) (cs : list string) (df : DataFrame)
  : result DataFrame :=
  let* _ := check_cols df cs in
  let* rs := mapM (astype_rec env cs) (records df) in
  Ok {| columns := columns df; records := rs |}.

(** Lines 153-158: the frame of candidate stations, with the records that
    miss a field or have an empty altitude dropped. *)
Definition filter_sites (text : string) : result DataFrame :=
  let r_list := rdb_rows text in
  (* r_list[0] is evaluated once per element of r_list[2:], so it exists *)
  let r_dict := (fun st => dict_of (zip (hd [] r_list) st)) <$> drop 2 r_list in
  let df := dropna (from_dict r_dict) in
  drop_where_eq df "alt_va" "".

Definition numeric_columns : list string :=
  ["dec_lat_va"; "dec_long_va"; "alt_va"].

(** Lines 153-161: the candidates with their three numeric columns
    converted. *)
Definition read_sites (env : Env) (text : string) : result DataFrame :=
  let* df := filter_sites text in
  astype_float env numeric_columns df.

(** Lines 164-169: [[row.site_no, geom.Point(row.dec_long_va, row.dec_lat_va)]]
    for each row. *)
Definition site_point (r : gmap string cell) : result (string * Point) :=
  let* k := str_of (cell_at r "site_no") in
  let* x := num_of (cell_at r "dec_long_va") in
  let* y := num_of (cell_at r "dec_lat_va") in
  Ok (k, (x, y)).

Definition site_points (df : DataFrame) : result (list (string * Point)) :=
  let* _ := check_cols df ["site_no"; "dec_lat_va"; "dec_long_va"] in
  mapM site_point (records df).

(** [p.equals(q)] for points: the same coordinates. *)
Definition geom_equals (p q : Point) : bool :=
  (p.1 =? q.1)%float && (p.2 =? q.2)%float.

(** [col.values[0]] *)
Definition values0 (col : result (list cell)) : result cell :=
  let* vs := col in getitem vs 0.

(** Lines 163-181. *)
Definition select_station (env : Env) (point : Point) (df : DataFrame)
  : result StationInfo :=
  let* rows := site_points df in
  let pts := odict rows in
  let gdf := pts in
  let* nearest := nearest_points env point (gdf.*2) in
  let* idx := getitem (List.filter (fun kv => geom_equals kv.2 nearest) gdf).*1 0 in
  let* station := where_eq df "site_no" idx in
  let* c_id := values0 (getattr station "site_no") in
  let* site_no := str_of c_id in
  let* c_lon := values0 (getattr station "dec_long_va") in
  let* lon := num_of c_lon in
  let* c_lat := values0 (getattr station "dec_lat_va") in
  let* lat := num_of c_lat in
  let* c_alt := values0 (getcol station "alt_va") in
  let* alt := float_of env c_alt in
  let* c_datum := values0 (getcol station "alt_datum_cd") in
  let* datum := str_of c_datum in
  let* c_name := values0 (getattr station "station_nm") in
  let* name := str_of c_name in
  Ok {| station_id := site_no; coords := (lon, lat); altitude := ft_to_m alt;
        datum := datum; name := name |}.

(** Lines 136-143: the box of one degree by one degree around the point. *)
Definition search_box (coords : float * float) : site_query :=
  BBox (coords.1 - 0.5) (coords.2 - 0.5) (coords.1 + 0.5) (coords.2 + 0.5).

Definition get_id (env : Env) (coords : float * float) : result StationInfo :=
  let bbox := search_box coords in
  (* except requests.HTTPError: the name [requests] is not bound in the
     module, so matching any exception against the clause is a NameError *)
  let* text := match session_get env bbox with
               | Ok t => Ok t
               | Raise _ => Raise NameError
               end in
  let* df := read_sites env text in
  select_station env coords df.

(** ** The world: file system, standard output, calls to the NLDI client *)

(** A path, as its components: [Path(a, b)] is [[a; b]]. *)
Abbreviation path := (list string) (only parsing).

(** What [print] writes.  The text of a message is a function of the values
    kept here. *)
Inductive message : Set :=
| MsgCannotCreate (sid : string) (d : string)
| MsgDownloading (sid : string)
| MsgSaved (sid : string) (geom_file : path)
| MsgRepr (sid name : string) (lon lat altitude : float) (datum : string)
          (drainage_area : Qc).

(** A member of the [NLDI] client that was evaluated. *)
Inductive call : Set :=
| CallComid (sid : string)
| CallRiverNetwork (sid : string) (nav : navigation)
| CallNhdplusById (sid : string) (comids : list comid)
| CallBasin (sid : string).

Record World := {
  dirs : gset path;
  files : gmap path GeoSeries;
  (** whether the process may create directories and files *)
  writable : bool;
  stdout : list message;
  nldi_calls : list call
}.

(** Stateful, fallible computations: an exception keeps the effects that came
    before it. *)
Definition M (A : Type) : Type := World -> result A * World.

Definition ret {A} (a : A) : M A := fun w => (Ok a, w).
Definition raise {A} (e : exn) : M A := fun w => (Raise e, w).
Definition lift {A} (r : result A) : M A := fun w => (r, w).

Definition bind {A B} (m : M A) (k : A -> M B) : M B :=
  fun w =>
    match m w with
    | (Ok a, w') => k a w'
    | (Raise e, w') => (Raise e, w')
    end.

Notation "'let!' x ':=' m 'in' k" := (bind m (fun x => k))
  (at level 10, x pattern, m at level 100, k at level 200).

(** [try: body  except E: handler], where [caught] says which exceptions are
    instances of [E]. *)
Definition try_except {A} (body : M A) (caught : exn -> bool) (handler : M A)
  : M A :=
  fun w =>
    match body w with
    | (Ok a, w') => (Ok a, w')
    | (Raise e, w') => if caught e then handler w' else (Raise e, w')
    end.

Definition print (msg : message) : M unit :=
  fun w => (Ok tt, {| dirs := dirs w; files := files w; writable := writable w;
                      stdout := stdout w ++ [msg];
                      nldi_calls := nldi_calls w |}).

(** Evaluating a member of the client: the call is recorded, then it returns
    or raises. *)
Definition remote {A} (c : call) (r : result A) : M A :=
  fun w => (r, {| dirs := dirs w; files := files w; writable := writable w;
                  stdout := stdout w;
                  nldi_calls := nldi_calls w ++ [c] |}).

(** [p.is_dir()], [p.exists()] *)
Definition is_dir (p : path) : M bool :=
  fun w => (Ok (bool_decide (p ∈ dirs w)), w).

Definition exists_in (w : World) (p : path) : bool :=
  bool_decide (p ∈ dirs w) || bool_decide (p ∈ dom (files w)).

Definition path_exists (p : path) : M bool :=
  fun w => (Ok (exists_in w p), w).

(** The prefixes of a path, itself included: the directories that
    [os.makedirs] creates. *)
Fixpoint ancestors (p : path) : list path :=
  match p with
  | [] => [[]]
  | c :: p' => [] :: ((fun q => c :: q) <$> ancestors p')
  end.

(** [os.makedirs(p)]: [OSError] when the directory cannot be created. *)
Definition makedirs (p : path) : M unit :=
  fun w =>
    if writable w && negb (bool_decide (p ∈ dirs w))
       && forallb (fun q => negb (bool_decide (q ∈ dom (files w)))) (ancestors p)
    then (Ok tt, {| dirs := dirs w ∪ list_to_set (ancestors p);
                    files := files w; writable := writable w;
                    stdout := stdout w; nldi_calls := nldi_calls w |})
    else (Raise OSError, w).

(** [gpd.read_file(p).geometry] *)
Definition read_file (p : path) : M GeoSeries :=
  fun w =>
    match files w !! p with
    | Some g => (Ok g, w)
    | None => (Raise DriverError, w)
    end.

(** [g.to_file(p)]: the file is written when its directory exists and may be
    written to; what is read back is what was written. *)
Definition can_write (w : World) (p : path) : bool :=
  writable w && bool_decide (removelast p ∈ dirs w)
  && negb (bool_decide (p ∈ dirs w)).

Definition to_file (g : GeoSeries) (p : path) : M unit :=
  fun w =>
    if can_write w p
    then (Ok tt, {| dirs := dirs w; files := <[p := g]> (files w);
                    writable := writable w;
                    stdout := stdout w; nldi_calls := nldi_calls w |})
    else (Raise DriverError, w).

(** ** Watershed resolution *)

(** The attributes that [get_watershed] assigns to [self]. *)
Record WatershedInfo := {
  ws_comid : comid;
  tributaries : list comid;
  main_channel : list comid;
  flowlines : list (comid * Qc);
  drainage_area : Qc;
  ws_geometry : geometry
}.

(** [col.sum()] *)
Definition sum (l : list Qc) : Qc := foldr Qcplus 0%Qc l.

(** [self.data_dir.joinpath("geometry.gpkg")] *)
Definition geom_path (data_dir : path) : path :=
  data_dir ++ ["geometry.gpkg"].

(** The calls that precede the look at the cache. *)
Definition network_calls (sid : string) (tribs : list comid) : list call :=
  [ CallComid sid;
    CallRiverNetwork sid upstreamTributaries;
    CallRiverNetwork sid upstreamMain;
    CallNhdplusById sid tribs ].

(** The world once the network id, both traces and the catchments were
    fetched. *)
Definition after_network (sid : string) (w : World) (tribs : list comid)
  : World :=
  {| dirs := dirs w; files := files w; writable := writable w;
     stdout := stdout w;
     nldi_calls := nldi_calls w ++ network_calls sid tribs |}.

Definition get_watershed (env : Env) (sid : string) (data_dir : path)
  : M WatershedInfo :=
  let geom_file := geom_path data_dir in
  let watershed := nldi env sid in
  let! comid := remote (CallComid sid) (nldi_comid watershed) in
  let! tributaries :=
    remote (CallRiverNetwork sid upstreamTributaries)
           (get_river_network watershed upstreamTributaries) in
  let! main_channel :=
    remote (CallRiverNetwork sid upstreamMain)
           (get_river_network watershed upstreamMain) in
  (* drainage area in sq. km *)
  let! flowlines :=
    remote (CallNhdplusById sid tributaries)
           (get_nhdplus_byid watershed tributaries) in
  let drainage_area := sum flowlines.*2 in
  let! cached := path_exists geom_file in
  if cached then
    (* gdf = gpd.read_file(geom_file); gdf.geometry.values[0] *)
    let! gdf := read_file geom_file in
    let! g := lift (getitem gdf 0) in
    ret {| ws_comid := comid; tributaries := tributaries;
           main_channel := main_channel; flowlines := flowlines;
           drainage_area := drainage_area; ws_geometry := g |}
  else
    let! _ := print (MsgDownloading sid) in
    let! geom := remote (CallBasin sid) (basin watershed) in
    let! g := lift (getitem geom 0) in
    let! _ := to_file geom geom_file in
    let! _ := print (MsgSaved sid geom_file) in
    ret {| ws_comid := comid; tributaries := tributaries;
           main_channel := main_channel; flowlines := flowlines;
           drainage_area := drainage_area; ws_geometry := g |}.

(** ** Construction *)

Record Station := {
  start : Z;
  end_ : Z;
  rain_snow : bool;
  tcr : float;
  phenology : bool;
  width : Z;
  info : StationInfo;
  lon : float;
  lat : float;
  data_dir : path;
  watershed : WatershedInfo
}.

(** The arguments of [Station(...)]; [None] is Python's [None]. *)
Record Args := {
  arg_start : string;
  arg_end : string;
  arg_station_id : option string;
  arg_coords : option (float * float);
  arg_data_dir : string;
  arg_rain_snow : bool;
  arg_tcr : float;
  arg_phenology : bool;
  arg_width : Z
}.

Definition default_args (start end_ : string) : Args :=
  {| arg_start := start; arg_end := end_; arg_station_id := None;
     arg_coords := None; arg_data_dir := "data"; arg_rain_snow := false;
     arg_tcr := 0%float; arg_phenology := false; arg_width := 2000 |}.

Definition parse_date (env : Env) (s : string) : result Z :=
  match to_datetime env s with
  | Some t => Ok t
  | None => Raise ValueError
  end.

Definition is_OSError (e : exn) : bool :=
  match e with OSError => true | _ => false end.

(** The name [d] of line 97 is bound neither in [__init__] nor in the module:
    reading it raises [NameError]. *)
Definition unbound_name_d : M string := raise NameError.

Definition __init__ (env : Env) (a : Args) : M Station :=
  let! start := lift (parse_date env (arg_start a)) in
  let! end_ := lift (parse_date env (arg_end a)) in
  let! info :=
    match arg_station_id a, arg_coords a with
    | None, Some coords => lift (get_id env coords)
    | Some station_id, None => lift (get_coords env station_id)
    | _, _ => raise RuntimeError
    end in
  let '(lon, lat) := coords info in
  let data_dir := [arg_data_dir a; station_id info] in
  let! isdir := is_dir data_dir in
  let! _ :=
    if negb isdir then
      try_except (makedirs data_dir) is_OSError
        (let! d := unbound_name_d in
         print (MsgCannotCreate (station_id info) d))
    else ret tt in
  let! watershed := get_watershed env (station_id info) data_dir in
  let! _ := print (MsgRepr (station_id info) (name info) lon lat
                      (altitude info) (datum info) (drainage_area watershed)) in
  ret {| start := start; end_ := end_; rain_snow := arg_rain_snow a;
         tcr := arg_tcr a; phenology := arg_phenology a; width := arg_width a;
         info := info; lon := lon; lat := lat; data_dir := data_dir;
         watershed := watershed |}.

(** ** Planar distance *)

(** The rational number a binary64 float denotes (0 for infinities and nan). *)
Definition F2Q (x : float) : Q :=
  match Prim2SF x with
  | S754_finite s m e =>
      ((if s then -1 else 1) * inject_Z (Z.pos m) * 2 ^ e)%Q
  | _ => 0%Q
  end.

(** The square of the planar distance between two points. *)
Definition dist2 (p q : Point) : Q :=
  ((F2Q p.1 - F2Q q.1) ^ 2 + (F2Q p.2 - F2Q q.2) ^ 2)%Q.


(** ** The catchment service *)

(** Modelled from the spec: [NLDI.get_nhdplus_byid] is defined in
    [hydrodata/datasets.py], which is not among the sources.  The spec gives
    it as [catchments(reach_ids) -> mapping reach_id -> area_km2], fetched
    "for exactly the reach ids present in the tributary set": the entries of
    the service's table [areas] whose reach id was asked for. *)
Definition catchments (areas : gmap comid Qc) (reach_ids : list comid)
  : gmap comid Qc :=
  filter (fun kv => kv.1 ∈ reach_ids) areas.

(** The frame of that mapping, one row per reach. *)
Definition catchments_frame (areas : gmap comid Qc) (reach_ids : list comid)
  : result (list (comid * Qc)) :=
  Ok (map_to_list (catchments areas reach_ids)).

(** The sum of the per-reach areas over a set of reach ids. *)
Definition area_of (areas : gmap comid Qc) (k : comid) : Qc :=
  default 0%Qc (areas !! k).

Definition set_area (areas : gmap comid Qc) (ids : gset comid) : Qc :=
  sum (area_of areas <$> elements ids).

(** ** Executable stand-ins for the collaborators *)

(** [float(s)] on plain decimals [[-]ddd[.ddd]] of at most fifteen digits,
    where the quotient of two exactly represented integers is the correctly
    rounded value. *)
Definition digit (c : ascii) : option Z :=
  let n := nat_of_ascii c in
  if (48 <=? n)%nat && (n <=? 57)%nat then Some (Z.of_nat (n - 48)) else None.

Fixpoint digits (s : string) (acc : Z) (k : nat) : Z * nat * string :=
  match s with
  | EmptyString => (acc, k, EmptyString)
  | String c s' =>
      match digit c with
      | Some d => digits s' (10 * acc + d)%Z (S k)
      | None => (acc, k, s)
      end
  end.

Definition Z2F (m : Z) : float := of_uint63 (Uint63.of_Z m).

Definition unsigned_decimal (s : string) : option float :=
  match digits s 0 0 with
  | (m, S k, EmptyString) => if (k <? 15)%nat then Some (Z2F m) else None
  | (m, S k, String "." s') =>
      match digits s' m 0 with
      | (m', k', EmptyString) =>
          if (k + k' <? 15)%nat
          then Some (Z2F m' / Z2F (10 ^ Z.of_nat k'))%float
          else None
      | _ => None
      end
  | _ => None
  end.

Definition decimal_float (s : string) : option float :=
  match s with
  | String "-" s' => (fun x => (- x)%float) <$> unsigned_decimal s'
  | _ => unsigned_decimal s
  end.

(** A linear scan for the nearest point; an empty geometry is a
    [ValueError]. *)
Fixpoint nearest_scan (p : Point) (l : list Point) : result Point :=
  match l with
  | [] => Raise ValueError
  | q :: l' =>
      match nearest_scan p l' with
      | Ok r => if Qle_bool (dist2 p q) (dist2 p r) then Ok q else Ok r
      | Raise _ => Ok q
      end
  end.

(** ** Sample data *)

Fixpoint join (sep : ascii) (l : list string) : string :=
  match l with
  | [] => ""
  | [s] => s
  | s :: l' => (s ++ String sep (join sep l'))%string
  end.

(** The text of an RDB table, one list of fields per line. *)
Definition rdb (lines : list (list string)) : string :=
  join LF (join TAB <$> lines).

Definition rdb_header : list (list string) :=
  [ ["# US Geological Survey"];
    ["agency_cd"; "site_no"; "station_nm"; "dec_lat_va"; "dec_long_va";
     "alt_va"; "alt_datum_cd"];
    ["5s"; "15s"; "50s"; "16s"; "16s"; "8s"; "10s"] ].

(** Frankford Creek, 100 ft above the datum. *)
Definition frankford_text : string :=
  rdb (rdb_header ++
       [ ["USGS"; "01467087"; "Frankford Creek at Castor Ave"; "40.015944";
          "-75.097167"; "100"; "NAVD88"]; [""] ])%list.

(** Two stations at one location, the larger id listed first, and a third
    record without altitude. *)
Definition colocated_text : string :=
  rdb (rdb_header ++
       [ ["USGS"; "02"; "Upper gauge"; "40.0"; "-75.0"; "100"; "NAVD88"];
         ["USGS"; "01"; "Lower gauge"; "40.0"; "-75.0"; "50"; "NAVD88"];
         ["USGS"; "03"; "No altitude"; "40.1"; "-75.0"; ""; "NAVD88"];
         [""] ])%list.

(** A station below its datum (Salton Sea). *)
Definition below_datum_text : string :=
  rdb (rdb_header ++
       [ ["USGS"; "10254005"; "Salton Sea near Westmorland"; "33.25";
          "-115.75"; "-228"; "NGVD29"]; [""] ])%list.

(** A box in which every record lacks an altitude. *)
Definition no_altitude_text : string :=
  rdb (rdb_header ++
       [ ["USGS"; "03"; "No altitude"; "40.1"; "-75.0"; ""; "NAVD88"];
         [""] ])%list.

Definition square : geometry :=
  Polygon [[(0, 0); (1, 0); (1, 1); (0, 1); (0, 0)]%float].

(** A client whose tributary trace lists reach 2 twice. *)
Definition sample_areas : gmap comid Qc :=
  {[ 1%Z := Q2Qc (3 # 2); 2%Z := Q2Qc (5 # 2); 3%Z := Q2Qc 4 ]}.

Definition sample_nldi : NLDI :=
  {| nldi_comid := Ok 4783213%Z;
     get_river_network := fun nav =>
       match nav with
       | upstreamTributaries => Ok [1; 2; 2; 3]%Z
       | upstreamMain => Ok [1; 2]%Z
       end;
     get_nhdplus_byid := catchments_frame sample_areas;
     basin := Ok [square] |}.

Definition sample_env (text : string) : Env :=
  {| py_float := decimal_float;
     to_datetime := fun _ => Some 0%Z;
     session_get := fun _ => Ok text;
     nearest_points := nearest_scan;
     nldi := fun _ => sample_nldi |}.

(** A fresh working directory, and the same on a read-only file system. *)
Definition fresh_world : World :=
  {| dirs := {[ [] ]}; files := ∅; writable := true; stdout := [];
     nldi_calls := [] |}.

Definition readonly_world : World :=
  {| dirs := {[ [] ]}; files := ∅; writable := false; stdout := [];
     nldi_calls := [] |}.

Definition station_dir : path := ["data"; "01467087"].

(** The station directory exists, the geometry file does not. *)
Definition prepared_world : World :=
  {| dirs := {[ []; ["data"]; station_dir ]}; files := ∅; writable := true;
     stdout := []; nldi_calls := [] |}.

(** The geometry file of the station is in place. *)
Definition cached_world : World :=
  {| dirs := {[ []; ["data"]; station_dir ]};
     files := {[ geom_path station_dir := [square] ]};
     writable := true; stdout := []; nldi_calls := [] |}.

(** What the resolution of the sample station returns. *)
Definition sample_watershed : WatershedInfo :=
  {| ws_comid := 4783213%Z; tributaries := [1; 2; 2; 3]%Z;
     main_channel := [1; 2]%Z;
     flowlines := map_to_list (catchments sample_areas [1; 2; 2; 3]%Z);
     drainage_area :=
       sum (map_to_list (catchments sample_areas [1; 2; 2; 3]%Z)).*2;
     ws_geometry := square |}.

Definition frankford_args : Args :=
  {| arg_start := "2010-01-01"; arg_end := "2015-12-31";
     arg_station_id := Some "01467087"; arg_coords := None;
     arg_data_dir := "data"; arg_rain_snow := false; arg_tcr := 0%float;
     arg_phenology := false; arg_width := 2000 |}.

(** A record of the frame read from [text]: the strings of a data row that
    has every column, with the numeric columns converted. *)
Definition site_record (env : Env) (text : string) (cols : gset string)
  (r : gmap string cell) : Prop :=
  exists (st : list string) (d : gmap string string),
    st ∈ drop 2 (rdb_rows text) /\
    d = dict_of (zip (hd [] (rdb_rows text)) st) /\
    cols ⊆ dom d /\
    astype_rec env numeric_columns (Str <$> d) = Ok r.



(** ** Further notions used by the properties *)

(** A field of a table: no tab and no line feed in it.  A line has at least
    one field; it is a comment line when a field holds a [#]. *)
Definition plain_field (f : string) : Prop :=
  contains TAB f = false /\ contains LF f = false.

Definition plain_line (fields : list string) : Prop :=
  fields <> [] /\ Forall plain_field fields.

Definition is_comment (fields : list string) : bool :=
  existsb (contains "#"%char) fields.

(** A candidate of the frame read from [text]: a data row with every column
    and a non-empty altitude, its numeric columns converted. *)
Definition candidate_row (env : Env) (text : string) (cols : gset string)
  (r : gmap string cell) : Prop :=
  exists (st : list string) (d : gmap string string),
    st ∈ drop 2 (rdb_rows text) /\
    d = dict_of (zip (hd [] (rdb_rows text)) st) /\
    cols ⊆ dom d /\
    d !! "alt_va" <> Some "" /\
    astype_rec env numeric_columns (Str <$> d) = Ok r.

(** The ids of the rows, in strictly increasing lexicographic order. *)
Definition ids_increasing (rows : list (string * (float * float))) : Prop :=
  StronglySorted (fun a b => String.ltb a b = true) rows.*1.

(** Lines 76-85: the resolution that [__init__] runs for its arguments. *)
Definition resolve_station (env : Env) (a : Args) : result StationInfo :=
  match arg_station_id a, arg_coords a with
  | None, Some coords => get_id env coords
  | Some station_id, None => get_coords env station_id
  | _, _ => Raise RuntimeError
  end.

(** Lines 91-98: the directory of the station is created when missing. *)
Definition ensure_dir (sid : string) (data_dir : list string) : M unit :=
  let! isdir := is_dir data_dir in
  if negb isdir then
    try_except (makedirs data_dir) is_OSError
      (let! d := unbound_name_d in print (MsgCannotCreate sid d))
  else ret tt.

(** Lines 87-102: what [__init__] does once the station is resolved. *)
Definition construct (env : Env) (a : Args) (start end_ : Z)
  (info : StationInfo) : M Station :=
  let data_dir := [arg_data_dir a; station_id info] in
  let! _ := ensure_dir (station_id info) data_dir in
  let! watershed := get_watershed env (station_id info) data_dir in
  let! _ := print (MsgRepr (station_id info) (name info) (coords info).1
                      (coords info).2 (altitude info) (datum info)
                      (drainage_area watershed)) in
  ret {| start := start; end_ := end_; rain_snow := arg_rain_snow a;
         tcr := arg_tcr a; phenology := arg_phenology a; width := arg_width a;
         info := info; lon := (coords info).1; lat := (coords info).2;
         data_dir := data_dir; watershed := watershed |}.

(** Lines 124-129: the record that [get_coords] reads from a data row under
    a header. *)
Definition station_of_row (env : Env) (sid : string)
  (header row : list string) : result StationInfo :=
  let station := dict_of (zip header row) in
  let* lon_s := dict_get station "dec_long_va" in
  let* lon := float_of env (Str lon_s) in
  let* lat_s := dict_get station "dec_lat_va" in
  let* lat := float_of env (Str lat_s) in
  let* alt_s := dict_get station "alt_va" in
  let* alt := float_of env (Str alt_s) in
  let* datum := dict_get station "alt_datum_cd" in
  let* name := dict_get station "station_nm" in
  Ok {| station_id := sid; coords := (lon, lat); altitude := ft_to_m alt;
        datum := datum; name := name |}.

(** ** More sample data *)

(** The answer for a station that the service does not know: no data row. *)
Definition unknown_station_text : string := rdb rdb_header.

(** A far station whose latitude does not read as a number, after a good
    one. *)
Definition bad_number_text : string :=
  rdb (rdb_header ++
       [ ["USGS"; "01"; "Lower gauge"; "40.0"; "-75.0"; "50"; "NAVD88"];
         ["USGS"; "09"; "Far gauge"; "n/a"; "-75.4"; "10"; "NAVD88"];
         [""] ]).

Definition bad_number_record : gmap string cell :=
  Str <$> dict_of (zip ["agency_cd"; "site_no"; "station_nm"; "dec_lat_va";
                        "dec_long_va"; "alt_va"; "alt_datum_cd"]
                       ["USGS"; "09"; "Far gauge"; "n/a"; "-75.4"; "10";
                        "NAVD88"]).

Definition bad_number_sites : DataFrame :=
  match filter_sites bad_number_text with
  | Ok df => df
  | Raise _ => {| columns := ∅; records := [] |}
  end.

(** Two stations at one location, listed by increasing id. *)
Definition sorted_text : string :=
  rdb (rdb_header ++
       [ ["USGS"; "01"; "Lower gauge"; "40.0"; "-75.0"; "50"; "NAVD88"];
         ["USGS"; "02"; "Upper gauge"; "40.0"; "-75.0"; "100"; "NAVD88"];
         [""] ]).

Definition sorted_sites : DataFrame :=
  match read_sites (sample_env sorted_text) sorted_text with
  | Ok df => df
  | Raise _ => {| columns := ∅; records := [] |}
  end.

Definition sorted_rows : list (string * Point) :=
  [("01", (-75, 40)%float); ("02", (-75, 40)%float)].

(** The service cannot be reached. *)
Definition offline_env : Env :=
  {| py_float := decimal_float;
     to_datetime := fun _ => Some 0%Z;
     session_get := fun _ => Raise ConnectionError;
     nearest_points := nearest_scan;
     nldi := fun _ => sample_nldi |}.

(** The client answers with a basin that has no geometry, or does not answer
    at all. *)
Definition empty_basin_env : Env :=
  {| py_float := decimal_float;
     to_datetime := fun _ => Some 0%Z;
     session_get := fun _ => Ok frankford_text;
     nearest_points := nearest_scan;
     nldi := fun _ =>
       {| nldi_comid := nldi_comid sample_nldi;
          get_river_network := get_river_network sample_nldi;
          get_nhdplus_byid := get_nhdplus_byid sample_nldi;
          basin := Ok [] |} |}.

Definition no_network_env : Env :=
  {| py_float := decimal_float;
     to_datetime := fun _ => Some 0%Z;
     session_get := fun _ => Ok frankford_text;
     nearest_points := nearest_scan;
     nldi := fun _ =>
       {| nldi_comid := Raise Timeout;
          get_river_network := get_river_network sample_nldi;
          get_nhdplus_byid := get_nhdplus_byid sample_nldi;
          basin := basin sample_nldi |} |}.

Definition frankford_info : StationInfo :=
  {| station_id := "01467087";
     coords := ((-75.097167)%float, 40.015944%float);
     altitude := ft_to_m 100; datum := "NAVD88";
     name := "Frankford Creek at Castor Ave" |}.

Definition frankford_station : Station :=
  {| start := 0; end_ := 0; rain_snow := false; tcr := 0%float;
     phenology := false; width := 2000; info := frankford_info;
     lon := (-75.097167)%float; lat := 40.015944%float;
     data_dir := station_dir; watershed := sample_watershed |}.

(** The station directory and its geometry file on a read-only file
    system. *)
Definition readonly_cached_world : World :=
  {| dirs := {[ []; ["data"]; station_dir ]};
     files := {[ geom_path station_dir := [square] ]};
     writable := false; stdout := []; nldi_calls := [] |}.

(** ** Resolution in either direction, and answers without a candidate *)

(** Lines 76-85: the two directions in which a station is resolved. *)
Inductive direction :=
  | ById (sid : string)
  | ByCoords (point : Point).

(** The query that each direction sends to the site service (lines 120-122
    and 136-143). *)
Definition query_of (dir : direction) : site_query :=
  match dir with
  | ById sid => Sites sid
  | ByCoords point => search_box point
  end.

Definition resolve (env : Env) (dir : direction) : result StationInfo :=
  match dir with
  | ById sid => get_coords env sid
  | ByCoords point => get_id env point
  end.

(** A record with both coordinates: non-empty strings in the latitude and
    the longitude column. *)
Definition has_coordinates (r : gmap string cell) : bool :=
  match r !! "dec_lat_va", r !! "dec_long_va" with
  | Some (Str lat), Some (Str lon) =>
      negb (String.eqb lat "") && negb (String.eqb lon "")
  | _, _ => false
  end.

(** The exception of [get_id] on an answer without a valid candidate, by the
    line that raises it: [df.alt_va] (line 158), the column selection and
    [astype] of lines 159-161, the column selection of line 167,
    [nearest_points] on an empty geometry (line 171), [index[0]] (line
    172). *)
Definition no_candidate_exn (env : Env) (point : Point) (text : string)
  : exn :=
  match filter_sites text with
  | Raise _ => AttributeError
  | Ok df =>
      if decide (Forall (fun c => c ∈ columns df) numeric_columns) then
        match records df with
        | _ :: _ => ValueError
        | [] =>
            if decide (Forall (fun c => c ∈ columns df)
                         ["site_no"; "dec_lat_va"; "dec_long_va"])
            then match nearest_points env point [] with
                 | Raise e => e
                 | Ok _ => IndexError
                 end
            else KeyError
        end
      else KeyError
  end.

(** A box whose only record has an altitude and no latitude. *)
Definition no_latitude_text : string :=
  rdb (rdb_header ++
       [ ["USGS"; "04"; "No latitude"; ""; "-75.0"; "20"; "NAVD88"];
         [""] ]).

(** * Properties *)

(** ** Watershed resolution: calls to the client *)

Section Watershed.
Variables (env : Env) (sid : string) (dir : path).

Let client := nldi env sid.

Lemma get_watershed_unfold w id tribs main fl :
  nldi_comid client = Ok id ->
  get_river_network client upstreamTributaries = Ok tribs ->
  get_river_network client upstreamMain = Ok main ->
  get_nhdplus_byid client tribs = Ok fl ->
  get_watershed env sid dir w =
    (if exists_in w (geom_path dir) then
       let! gdf := read_file (geom_path dir) in
       let! g := lift (getitem gdf 0) in
       ret {| ws_comid := id; tributaries := tribs; main_channel := main;
              flowlines := fl; drainage_area := sum fl.*2;
              ws_geometry := g |}
     else
       let! _ := print (MsgDownloading sid) in
       let! geom := remote (CallBasin sid) (basin client) in
       let! g := lift (getitem geom 0) in
       let! _ := to_file geom (geom_path dir) in
       let! _ := print (MsgSaved sid (geom_path dir)) in
       ret {| ws_comid := id; tributaries := tribs; main_channel := main;
              flowlines := fl; drainage_area := sum fl.*2;
              ws_geometry := g |})
      (after_network sid w tribs).
Proof.
  intros Hid Htr Hmain Hfl.
  unfold get_watershed, bind, remote, path_exists. fold client.
  rewrite Hid, Htr, Hmain, Hfl. cbn.
  unfold after_network, network_calls.
  rewrite <- !app_assoc. reflexivity.
Qed.

(** A resolution that returns has had all four answers from the client, and
    its attributes are those answers. *)
Lemma get_watershed_ok_inv w ws w' :
  get_watershed env sid dir w = (Ok ws, w') ->
  nldi_comid client = Ok (ws_comid ws) /\
  get_river_network client upstreamTributaries = Ok (tributaries ws) /\
  get_river_network client upstreamMain = Ok (main_channel ws) /\
  get_nhdplus_byid client (tributaries ws) = Ok (flowlines ws) /\
  drainage_area ws = sum (flowlines ws).*2.
Proof.
  intros Hrun.
  destruct (nldi_comid client) as [id|] eqn:Hid;
    [|unfold get_watershed, bind, remote in Hrun; fold client in Hrun;
      rewrite Hid in Hrun; cbn in Hrun; discriminate].
  destruct (get_river_network client upstreamTributaries) as [tribs|] eqn:Htr;
    [|unfold get_watershed, bind, remote in Hrun; fold client in Hrun;
      rewrite Hid, Htr in Hrun; cbn in Hrun; discriminate].
  destruct (get_river_network client upstreamMain) as [main|] eqn:Hmain;
    [|unfold get_watershed, bind, remote in Hrun; fold client in Hrun;
      rewrite Hid, Htr, Hmain in Hrun; cbn in Hrun; discriminate].
  destruct (get_nhdplus_byid client tribs) as [fl|] eqn:Hfl;
    [|unfold get_watershed, bind, remote in Hrun; fold client in Hrun;
      rewrite Hid, Htr, Hmain, Hfl in Hrun; cbn in Hrun; discriminate].
  rewrite (get_watershed_unfold _ _ _ _ _ Hid Htr Hmain Hfl) in Hrun.
  destruct (exists_in w (geom_path dir));
    unfold bind, read_file, print, remote, to_file, lift, ret in Hrun;
    cbn [dirs files writable stdout nldi_calls after_network] in Hrun.
  - destruct (files w !! geom_path dir) as [gdf|]; [|discriminate].
    destruct (getitem gdf 0); [|discriminate].
    injection Hrun as <- <-. cbn. auto.
  - destruct (basin client) as [geom|]; [|discriminate].
    destruct (getitem geom 0); [|discriminate].
    destruct (can_write _ _); [|discriminate].
    injection Hrun as <- <-. cbn. auto.
Qed.

(** With the geometry file in place, the geometry is its first row and the
    client is asked for nothing but the network. *)
Lemma get_watershed_hit w gdf ws w' :
  files w !! geom_path dir = Some gdf ->
  get_watershed env sid dir w = (Ok ws, w') ->
  getitem gdf 0 = Ok (ws_geometry ws) /\
  w' = after_network sid w (tributaries ws).
Proof.
  intros Hfile Hrun.
  destruct (get_watershed_ok_inv _ _ _ Hrun)
    as (Hid & Htr & Hmain & Hfl & _).
  rewrite (get_watershed_unfold _ _ _ _ _ Hid Htr Hmain Hfl) in Hrun.
  assert (Hex : exists_in w (geom_path dir) = true).
  { unfold exists_in. apply orb_true_iff. right.
    apply bool_decide_eq_true, elem_of_dom. eauto. }
  rewrite Hex in Hrun.
  unfold bind, read_file, lift, ret in Hrun. cbn [files after_network] in Hrun.
  rewrite Hfile in Hrun.
  destruct (getitem gdf 0) as [g|]; [|discriminate].
  injection Hrun as <- <-. auto.
Qed.

(** C10. Whenever the client answers, [get_watershed] asks it for the
    network id, the tributary trace, the main-channel trace and the
    catchments of the tributaries, in this order and whether or not the
    geometry file exists; the drainage area is summed anew from the
    catchments just fetched.  An existing geometry file saves the basin
    request and nothing else. *)
Theorem watershed_refetches_network w id tribs main fl :
  nldi_comid client = Ok id ->
  get_river_network client upstreamTributaries = Ok tribs ->
  get_river_network client upstreamMain = Ok main ->
  get_nhdplus_byid client tribs = Ok fl ->
  exists rest,
    nldi_calls (get_watershed env sid dir w).2
      = nldi_calls w ++ network_calls sid tribs ++ rest /\
    rest = (if exists_in w (geom_path dir) then [] else [CallBasin sid]) /\
    (forall ws, (get_watershed env sid dir w).1 = Ok ws ->
                drainage_area ws = sum fl.*2).
Proof.
  intros Hid Htr Hmain Hfl.
  rewrite (get_watershed_unfold _ _ _ _ _ Hid Htr Hmain Hfl).
  destruct (exists_in w (geom_path dir)).
  - exists []. rewrite app_nil_r.
    unfold bind, read_file, lift, ret. cbn [files after_network].
    destruct (files w !! geom_path dir) as [gdf|]; cbn;
      [|repeat split; auto; discriminate].
    destruct (getitem gdf 0); cbn; repeat split; auto;
      intros ws Hws; first [discriminate | by injection Hws as <-].
  - exists [CallBasin sid].
    unfold bind, print, remote, to_file, lift, ret.
    cbn [dirs files writable stdout nldi_calls after_network].
    destruct (basin client) as [geom|]; cbn;
      [|rewrite <- app_assoc; repeat split; auto; discriminate].
    destruct (getitem geom 0); cbn;
      [|rewrite <- app_assoc; repeat split; auto; discriminate].
    destruct (can_write _ _); cbn;
      rewrite <- app_assoc; repeat split; auto;
      intros ws Hws; first [discriminate | by injection Hws as <-].
Qed.

(** C6. On a cache miss the polygon obtained from the client is written to
    the geometry file before [get_watershed] returns, and when the file
    cannot be written the call raises the failure of [to_file] although
    the polygon was obtained. *)
Theorem watershed_miss_persists w id tribs main fl geom g :
  nldi_comid client = Ok id ->
  get_river_network client upstreamTributaries = Ok tribs ->
  get_river_network client upstreamMain = Ok main ->
  get_nhdplus_byid client tribs = Ok fl ->
  basin client = Ok geom ->
  getitem geom 0 = Ok g ->
  exists_in w (geom_path dir) = false ->
  let run := get_watershed env sid dir w in
  CallBasin sid ∈ nldi_calls run.2 /\
  (forall ws, run.1 = Ok ws ->
     ws_geometry ws = g /\ files run.2 !! geom_path dir = Some geom) /\
  (can_write w (geom_path dir) = true -> is_ok run.1 = true) /\
  (can_write w (geom_path dir) = false ->
     run.1 = Raise DriverError /\ files run.2 = files w).
Proof.
  intros Hid Htr Hmain Hfl Hbasin Hg Hmiss run. subst run.
  rewrite (get_watershed_unfold _ _ _ _ _ Hid Htr Hmain Hfl), Hmiss.
  unfold bind, print, remote, lift, ret. fold client. rewrite Hbasin, Hg.
  unfold to_file, can_write.
  cbn [dirs files writable stdout nldi_calls after_network].
  destruct (_ && _ && _); cbn.
  - split; [|split; [|split]]; try done.
    + rewrite !elem_of_app, list_elem_of_singleton. auto.
    + intros ws [= <-]. cbn. split; [done|]. apply lookup_insert_eq.
  - split; [|split; [|split]]; try done.
    rewrite !elem_of_app, list_elem_of_singleton. auto.
Qed.

(** C2. After a resolution that returned, the geometry file exists, and a
    second resolution of the same station returns the very same geometry,
    read from that file, while the client is asked for the network only:
    no basin request is made. *)
Theorem watershed_cache_idempotent w0 ws1 w1 :
  get_watershed env sid dir w0 = (Ok ws1, w1) ->
  exists gdf ws2 w2,
    files w1 !! geom_path dir = Some gdf /\
    get_watershed env sid dir w1 = (Ok ws2, w2) /\
    ws_geometry ws2 = ws_geometry ws1 /\
    getitem gdf 0 = Ok (ws_geometry ws2) /\
    nldi_calls w2 = nldi_calls w1 ++ network_calls sid (tributaries ws2) /\
    (CallBasin sid ∉ network_calls sid (tributaries ws2)) /\
    files w2 = files w1.
Proof.
  intros Hrun.
  destruct (get_watershed_ok_inv _ _ _ Hrun)
    as (Hid & Htr & Hmain & Hfl & _).
  pose proof (get_watershed_unfold w1 _ _ _ _ Hid Htr Hmain Hfl) as Hsnd.
  rewrite (get_watershed_unfold _ _ _ _ _ Hid Htr Hmain Hfl) in Hrun.
  assert (Hcache : exists gdf, files w1 !! geom_path dir = Some gdf /\
                               getitem gdf 0 = Ok (ws_geometry ws1)).
  { destruct (exists_in w0 (geom_path dir)).
    - unfold bind, read_file, lift, ret in Hrun.
      cbn [files after_network] in Hrun.
      destruct (files w0 !! geom_path dir) as [gdf|] eqn:Hf; [|discriminate].
      destruct (getitem gdf 0) as [g|] eqn:Hg; [|discriminate].
      injection Hrun as <- <-. exists gdf. auto.
    - unfold bind, print, remote, to_file, lift, ret in Hrun.
      cbn [dirs files writable stdout nldi_calls after_network] in Hrun.
      destruct (basin client) as [geom|]; [|discriminate].
      destruct (getitem geom 0) as [g|] eqn:Hg; [|discriminate].
      destruct (can_write _ _); [|discriminate].
      injection Hrun as <- <-. exists geom. cbn. split; [|done].
      apply lookup_insert_eq. }
  destruct Hcache as (gdf & Hfile & Hg).
  assert (Hex : exists_in w1 (geom_path dir) = true).
  { unfold exists_in. apply orb_true_iff. right.
    apply bool_decide_eq_true, elem_of_dom. eauto. }
  rewrite Hex in Hsnd.
  unfold bind, read_file, lift, ret in Hsnd.
  cbn [files after_network] in Hsnd. rewrite Hfile, Hg in Hsnd.
  eexists gdf, _, _. split; [exact Hfile|]. split; [exact Hsnd|].
  cbn. repeat split; auto.
  unfold network_calls. intros Hin.
  repeat (apply elem_of_cons in Hin as [Hin|Hin]; [discriminate|]).
  by apply elem_of_nil in Hin.
Qed.
End Watershed.

(** ** Drainage area *)

Lemma sum_cons (x : Qc) (l : list Qc) : sum (x :: l) = (x + sum l)%Qc.
Proof. reflexivity. Qed.

Lemma sum_perm (l1 l2 : list Qc) : l1 ≡ₚ l2 -> sum l1 = sum l2.
Proof.
  induction 1 as [|x k1 k2 _ IH|x y k|k1 k2 k3 _ IH1 _ IH2].
  - reflexivity.
  - by rewrite !sum_cons, IH.
  - rewrite !sum_cons, !Qcplus_assoc. f_equal. apply Qcplus_comm.
  - congruence.
Qed.

(** The mapping returned for a list of reach ids is the one returned for the
    set of its elements. *)
Lemma catchments_set (areas : gmap Z Qc) (ids : list Z) :
  catchments areas ids
  = filter (fun kv => kv.1 ∈ (list_to_set ids : gset Z)) areas.
Proof.
  unfold catchments. apply map_filter_ext. intros k v _.
  change (k ∈ ids <-> k ∈ (list_to_set ids : gset Z)).
  by rewrite elem_of_list_to_set.
Qed.

Lemma set_area_filter (areas : gmap Z Qc) (S : gset Z) :
  set_area areas S
  = sum (map_to_list (filter (fun kv => kv.1 ∈ S) areas)).*2.
Proof.
  unfold set_area.
  induction S as [|i X Hi IH] using set_ind_L.
  - rewrite elements_empty.
    rewrite (map_empty_filter_2 _ areas); [by rewrite map_to_list_empty|].
    intros k v _. apply not_elem_of_empty.
  - rewrite (sum_perm _ _
               (fmap_Permutation _ _ _ (elements_union_singleton X i Hi))).
    rewrite fmap_cons, sum_cons, IH. unfold area_of.
    destruct (areas !! i) as [x|] eqn:Hx; cbn [default].
    + assert (Hins : filter (fun kv => kv.1 ∈ {[i]} ∪ X) areas
                     = <[i := x]> (filter (fun kv : Z * Qc => kv.1 ∈ X) areas)).
      { apply map_eq. intros k. destruct (decide (k = i)) as [->|Hne].
        - rewrite lookup_insert_eq. apply map_lookup_filter_Some.
          split; [done|]. apply elem_of_union. left. by apply elem_of_singleton.
        - rewrite lookup_insert_ne by done.
          destruct (filter _ areas !! k) as [v|] eqn:Hk.
          + apply map_lookup_filter_Some in Hk as [Hk HP].
            symmetry. apply map_lookup_filter_Some. split; [done|].
            change (k ∈ {[i]} ∪ X) in HP. change (k ∈ X).
            apply elem_of_union in HP as [HP|HP]; [|done].
            by apply elem_of_singleton in HP.
          + symmetry. apply map_lookup_filter_None.
            apply map_lookup_filter_None in Hk as [Hk|Hk]; [by left|].
            right. intros v Hv HX. apply (Hk v Hv).
            change (k ∈ {[i]} ∪ X). change (k ∈ X) in HX.
            apply elem_of_union. by right. }
      assert (Hnone : filter (fun kv : Z * Qc => kv.1 ∈ X) areas !! i = None).
      { apply map_lookup_filter_None. right. intros v _. done. }
      rewrite Hins.
      rewrite (sum_perm _ _ (fmap_Permutation snd _ _
                               (map_to_list_insert _ i x Hnone))).
      by rewrite fmap_cons, sum_cons.
    + rewrite Qcplus_0_l. do 3 f_equal.
      apply map_filter_ext. intros k v Hk.
      change (k ∈ X <-> k ∈ {[i]} ∪ X).
      rewrite elem_of_union, elem_of_singleton.
      assert (k <> i) by congruence. tauto.
Qed.

(** C3. With the catchments of the spec's client, the drainage area of a
    resolved watershed is the sum of the per-reach areas over the set of the
    tributary ids; a resolution whose tributary trace has the same ids,
    however often each is listed, yields the same area. *)
Theorem drainage_area_set_sum env sid dir areas w ws w' :
  (forall ids, get_nhdplus_byid (nldi env sid) ids
               = catchments_frame areas ids) ->
  get_watershed env sid dir w = (Ok ws, w') ->
  drainage_area ws = set_area areas (list_to_set (tributaries ws)) /\
  forall env' dir' v vs v',
    (forall ids, get_nhdplus_byid (nldi env' sid) ids
                 = catchments_frame areas ids) ->
    get_watershed env' sid dir' v = (Ok vs, v') ->
    (list_to_set (tributaries vs) : gset Z) = list_to_set (tributaries ws) ->
    drainage_area vs = drainage_area ws.
Proof.
  assert (Harea : forall env dir w ws w',
    (forall ids, get_nhdplus_byid (nldi env sid) ids
                 = catchments_frame areas ids) ->
    get_watershed env sid dir w = (Ok ws, w') ->
    drainage_area ws = set_area areas (list_to_set (tributaries ws))).
  { clear. intros env dir w ws w' Hsvc Hrun.
    destruct (get_watershed_ok_inv _ _ _ _ _ _ Hrun)
      as (_ & _ & _ & Hfl & ->).
    rewrite Hsvc in Hfl. injection Hfl as <-.
    by rewrite set_area_filter, catchments_set. }
  intros Hsvc Hrun. split; [by eapply Harea|].
  intros env' dir' v vs v' Hsvc' Hrun' Hset.
  rewrite (Harea _ _ _ _ _ Hsvc Hrun), (Harea _ _ _ _ _ Hsvc' Hrun').
  by rewrite Hset.
Qed.

Lemma drainage_area_set_sum_witness :
  let run := get_watershed (sample_env frankford_text) "01467087"
               station_dir prepared_world in
  tributaries sample_watershed = [1; 2; 2; 3]%Z /\
  drainage_area sample_watershed
  = set_area sample_areas (list_to_set [1; 2; 2; 3]%Z) /\
  set_area sample_areas (list_to_set [1; 2; 2; 3]%Z) = Q2Qc 8.
Proof.
  intros run. split; [reflexivity|]. split.
  - apply (drainage_area_set_sum (sample_env frankford_text) "01467087"
             station_dir sample_areas prepared_world sample_watershed run.2);
      reflexivity.
  - apply Qc_is_canon. vm_compute. reflexivity.
Defined.

(** Witnesses on the sample station. *)

Lemma watershed_refetches_network_witness :
  exists rest,
    nldi_calls (get_watershed (sample_env frankford_text) "01467087"
                  station_dir cached_world).2
      = nldi_calls cached_world
          ++ network_calls "01467087" [1; 2; 2; 3]%Z ++ rest /\
    rest = (if exists_in cached_world (geom_path station_dir)
            then [] else [CallBasin "01467087"]) /\
    (forall ws,
        (get_watershed (sample_env frankford_text) "01467087"
           station_dir cached_world).1 = Ok ws ->
        drainage_area ws
        = sum (map_to_list (catchments sample_areas [1; 2; 2; 3]%Z)).*2).
Proof.
  apply (watershed_refetches_network (sample_env frankford_text) "01467087"
           station_dir cached_world 4783213%Z [1; 2; 2; 3]%Z [1; 2]%Z);
    reflexivity.
Defined.

Lemma watershed_miss_persists_witness :
  let run := get_watershed (sample_env frankford_text) "01467087"
               station_dir prepared_world in
  CallBasin "01467087" ∈ nldi_calls run.2 /\
  (forall ws, run.1 = Ok ws ->
     ws_geometry ws = square /\
     files run.2 !! geom_path station_dir = Some [square]) /\
  (can_write prepared_world (geom_path station_dir) = true ->
     is_ok run.1 = true) /\
  (can_write prepared_world (geom_path station_dir) = false ->
     run.1 = Raise DriverError /\ files run.2 = files prepared_world).
Proof.
  apply (watershed_miss_persists (sample_env frankford_text) "01467087"
           station_dir prepared_world 4783213%Z [1; 2; 2; 3]%Z [1; 2]%Z
           (map_to_list (catchments sample_areas [1; 2; 2; 3]%Z))
           [square] square);
    reflexivity.
Defined.

(** Without the station directory the geometry file cannot be written: the
    basin was requested, and the call raises. *)
Example watershed_persist_failure :
  let run := get_watershed (sample_env frankford_text) "01467087"
               station_dir fresh_world in
  run.1 = Raise DriverError /\
  nldi_calls run.2
  = network_calls "01467087" [1; 2; 2; 3]%Z ++ [CallBasin "01467087"] /\
  files run.2 = ∅.
Proof. repeat split. Qed.

Lemma watershed_cache_idempotent_witness :
  exists gdf ws2 w2,
    files (get_watershed (sample_env frankford_text) "01467087"
             station_dir prepared_world).2 !! geom_path station_dir
      = Some gdf /\
    get_watershed (sample_env frankford_text) "01467087" station_dir
      (get_watershed (sample_env frankford_text) "01467087"
         station_dir prepared_world).2 = (Ok ws2, w2) /\
    ws_geometry ws2 = square /\
    getitem gdf 0 = Ok (ws_geometry ws2).
Proof.
  destruct (watershed_cache_idempotent (sample_env frankford_text) "01467087"
              station_dir prepared_world
              sample_watershed
              (get_watershed (sample_env frankford_text) "01467087"
                 station_dir prepared_world).2)
    as (gdf & ws2 & w2 & Hf & Hrun & Hg & Hread & _).
  - reflexivity.
  - exists gdf, ws2, w2. auto.
Defined.

(** ** Construction *)

(** C5. Constructing a [Station] with both a station id and coordinates, or
    with neither, raises: no station is returned and nothing was written,
    and the exception is the [RuntimeError] of [__init__] as soon as the two
    dates are well formed. *)
Theorem init_requires_exactly_one env a w :
  (arg_station_id a = None /\ arg_coords a = None) \/
  (is_Some (arg_station_id a) /\ is_Some (arg_coords a)) ->
  raises (__init__ env a w).1 /\
  (__init__ env a w).2 = w /\
  (is_Some (to_datetime env (arg_start a)) ->
   is_Some (to_datetime env (arg_end a)) ->
   (__init__ env a w).1 = Raise RuntimeError).
Proof.
  intros Hargs.
  assert (Hsel :
    match arg_station_id a, arg_coords a with
    | None, Some coords => lift (get_id env coords)
    | Some station_id, None => lift (get_coords env station_id)
    | _, _ => raise RuntimeError
    end = raise (A := StationInfo) RuntimeError).
  { destruct Hargs as [[-> ->]|[[s ->] [c ->]]]; reflexivity. }
  unfold __init__, parse_date. rewrite Hsel.
  unfold bind, lift, raise, raises.
  destruct (to_datetime env (arg_start a)) as [t1|]; cbn.
  - destruct (to_datetime env (arg_end a)) as [t2|]; cbn.
    + repeat split; eauto.
    + repeat split; eauto. intros _ [? [=]].
  - repeat split; eauto. intros [? [=]].
Qed.

Lemma init_requires_exactly_one_witness :
  raises (__init__ (sample_env frankford_text)
            (default_args "2010-01-01" "2015-12-31") fresh_world).1 /\
  (__init__ (sample_env frankford_text)
     (default_args "2010-01-01" "2015-12-31") fresh_world).2 = fresh_world /\
  (is_Some (Some 0%Z) -> is_Some (Some 0%Z) ->
   (__init__ (sample_env frankford_text)
      (default_args "2010-01-01" "2015-12-31") fresh_world).1
   = Raise RuntimeError).
Proof.
  apply (init_requires_exactly_one (sample_env frankford_text)
           (default_args "2010-01-01" "2015-12-31") fresh_world).
  left. split; reflexivity.
Defined.

(** The station of the module's docstring, constructed in a fresh working
    directory: its directory and geometry file are created, and the client
    is asked for the network and then for the basin. *)
Example init_frankford :
  let run := __init__ (sample_env frankford_text) frankford_args fresh_world in
  is_ok run.1 = true /\
  files run.2 = {[ geom_path station_dir := [square] ]} /\
  nldi_calls run.2
  = network_calls "01467087" [1; 2; 2; 3]%Z ++ [CallBasin "01467087"] /\
  stdout run.2
  = [ MsgDownloading "01467087";
      MsgSaved "01467087" (geom_path station_dir);
      MsgRepr "01467087" "Frankford Creek at Castor Ave"
        (-75.097167)%float 40.015944%float (ft_to_m 100) "NAVD88"
        (drainage_area sample_watershed) ].
Proof. repeat split. Qed.

(** When the station directory is missing and [os.makedirs] raises [OSError],
    the handler of line 94 raises [NameError]: nothing is printed and the
    construction stops. *)
Lemma init_makedirs_failure env a w t1 t2 st :
  to_datetime env (arg_start a) = Some t1 ->
  to_datetime env (arg_end a) = Some t2 ->
  match arg_station_id a, arg_coords a with
  | None, Some coords => get_id env coords
  | Some station_id, None => get_coords env station_id
  | _, _ => Raise RuntimeError
  end = Ok st ->
  [arg_data_dir a; station_id st] ∉ dirs w ->
  makedirs [arg_data_dir a; station_id st] w = (Raise OSError, w) ->
  __init__ env a w = (Raise NameError, w).
Proof.
  intros H1 H2 Hst Hdir Hmk.
  unfold __init__, parse_date. rewrite H1, H2.
  unfold bind at 1 2 3. unfold lift at 1 2. cbn.
  assert (Hsel :
    match arg_station_id a, arg_coords a with
    | None, Some coords => lift (get_id env coords)
    | Some station_id, None => lift (get_coords env station_id)
    | _, _ => raise RuntimeError
    end w = (Ok st, w)).
  { destruct (arg_station_id a), (arg_coords a); unfold lift, raise;
      congruence. }
  rewrite Hsel. destruct (coords st) as [lon lat].
  unfold bind, is_dir. rewrite bool_decide_eq_false_2 by done. cbn.
  unfold try_except. rewrite Hmk. reflexivity.
Qed.

(** C9. On a read-only file system the directory of station 01467087 cannot
    be created: [__init__] does not print and go on, it raises [NameError]
    and leaves the world as it was. *)
Theorem init_makedirs_failure_raises :
  __init__ (sample_env frankford_text) frankford_args readonly_world
  = (Raise NameError, readonly_world).
Proof.
  apply (init_makedirs_failure _ _ _ 0%Z 0%Z
           {| station_id := "01467087";
              coords := ((-75.097167)%float, 40.015944%float);
              altitude := ft_to_m 100; datum := "NAVD88";
              name := "Frankford Creek at Castor Ave" |});
    try reflexivity.
  cbn. set_solver.
Qed.

(** ** Unit conversion *)

(** C8. An altitude of 100 feet converts to the binary64 number 30.48; the
    number it denotes is within 1e-6 of 30.48 metres, and so is the altitude
    of a station whose record says 100. *)
Theorem ft_to_m_100 :
  ft_to_m 100 = 30.48%float /\
  (abs (ft_to_m 100 - 30.48) <? 1e-6)%float = true /\
  (Qabs (F2Q (ft_to_m 100) - (3048 # 100)) < (1 # 1000000))%Q /\
  match get_coords (sample_env frankford_text) "01467087" with
  | Ok st => altitude st = ft_to_m 100
  | Raise _ => False
  end.
Proof.
  repeat split; vm_compute; reflexivity.
Qed.

(** ** Lists, ordered dictionaries and frames *)

Lemma mapM_lookup {A B} (f : A -> result B) (l : list A) (l' : list B) :
  mapM f l = Ok l' ->
  length l' = length l /\
  forall i a, l !! i = Some a -> exists b, l' !! i = Some b /\ f a = Ok b.
Proof.
  revert l'. induction l as [|a l IH]; intros l' H; cbn in H.
  - injection H as <-. split; [done|]. intros i a Hi. by destruct i.
  - destruct (f a) as [b|] eqn:Hb; [|discriminate]. cbn in H.
    destruct (mapM f l) as [bs|]; [|discriminate]. cbn in H.
    injection H as <-. destruct (IH bs eq_refl) as [Hlen Hl].
    split; [cbn; by rewrite Hlen|].
    intros [|i] a' Hi; cbn in *.
    + injection Hi as <-. eauto.
    + eauto.
Qed.

Lemma odict_set_fresh {V} (d : list (string * V)) k v :
  k ∉ d.*1 -> odict_set d k v = d ++ [(k, v)].
Proof.
  induction d as [|[k' v'] d IH]; intros Hk; cbn; [done|].
  cbn in Hk. apply not_elem_of_cons in Hk as [Hne Hk].
  destruct (String.eqb k' k) eqn:E.
  - apply String.eqb_eq in E. congruence.
  - by rewrite IH.
Qed.

Lemma odict_NoDup {V} (kvs : list (string * V)) :
  NoDup kvs.*1 -> odict kvs = kvs.
Proof.
  unfold odict.
  enough (H : forall acc, NoDup (acc ++ kvs).*1 ->
            fold_left (fun d kv => odict_set d kv.1 kv.2) kvs acc = acc ++ kvs)
    by (intros Hnd; exact (H [] Hnd)).
  induction kvs as [|[k v] kvs IH]; intros acc Hnd; cbn.
  - by rewrite app_nil_r.
  - rewrite odict_set_fresh.
    + rewrite IH; rewrite <- app_assoc; [done|exact Hnd].
    + rewrite fmap_app in Hnd. apply NoDup_app in Hnd as (_ & Hd & _).
      intros Hin. apply (Hd k Hin). cbn. left.
Qed.

(** The head of a filtered list is the first element that passes. *)
Lemma filter_head {A} (P : A -> bool) (l : list A) x t :
  List.filter P l = x :: t ->
  exists i, l !! i = Some x /\ P x = true /\
            forall j y, l !! j = Some y -> P y = true -> i <= j.
Proof.
  induction l as [|a l IH]; cbn; [discriminate|].
  destruct (P a) eqn:Ha.
  - intros [= -> <-]. exists 0. repeat split; auto. intros; lia.
  - intros H. destruct (IH H) as (i & Hi & Hx & Hmin).
    exists (S i). repeat split; auto.
    intros [|j] y Hj Hy; cbn in Hj.
    + congruence.
    + specialize (Hmin j y Hj Hy). lia.
Qed.

Lemma filter_nonempty {A} (P : A -> bool) (l : list A) x :
  x ∈ l -> P x = true -> List.filter P l <> [].
Proof.
  intros Hin Hx Hnil.
  assert (In x (List.filter P l)) as Hf.
  { apply filter_In. split; [by apply list_elem_of_In|done]. }
  rewrite Hnil in Hf. destruct Hf.
Qed.



Lemma zip_elem {A B} (a : list A) (b : list B) x y :
  (x, y) ∈ zip a b -> y ∈ b.
Proof.
  revert b. induction a as [|x' a IH]; intros [|y' b] H; cbn in H;
    try by apply elem_of_nil in H.
  apply elem_of_cons in H as [Heq|H]; [|right; eauto].
  injection Heq as -> ->. left.
Qed.

Lemma dict_of_zip_elem (h r : list string) k v :
  dict_of (zip h r) !! k = Some v -> v ∈ r.
Proof.
  unfold dict_of. intros H.
  pose proof (elem_of_list_to_map_2 (M := gmap string) _ _ _ H) as Hin.
  rewrite elem_of_reverse in Hin. exact (zip_elem _ _ _ _ Hin).
Qed.

Lemma astype_rec_cons env c cs r :
  astype_rec env (c :: cs) r
  = let* r' := astype_rec env cs r in
    let* f := float_of env (cell_at r' c) in
    Ok (<[c := Num f]> r').
Proof. reflexivity. Qed.

Lemma astype_rec_lookup env cs r r' :
  astype_rec env cs r = Ok r' ->
  forall c,
    (c ∈ cs -> exists f, r' !! c = Some (Num f) /\
                         float_of env (cell_at r c) = Ok f) /\
    (c ∉ cs -> r' !! c = r !! c).
Proof.
  revert r'. induction cs as [|c0 cs IH]; intros r' H c.
  - cbn in H. injection H as <-. split; [by intros ?%elem_of_nil|done].
  - rewrite astype_rec_cons in H.
    destruct (astype_rec env cs r) as [r''|] eqn:Hr''; [|discriminate].
    cbn in H.
    destruct (float_of env (cell_at r'' c0)) as [f|] eqn:Hf; [|discriminate].
    cbn in H. injection H as <-.
    destruct (IH r'' eq_refl c) as [IHin IHout].
    destruct (decide (c = c0)) as [->|Hne].
    + split; [|intros Hc; exfalso; apply Hc; left].
      intros _. exists f. rewrite lookup_insert_eq. split; [done|].
      destruct (decide (c0 ∈ cs)) as [Hc|Hc].
      * destruct (IHin Hc) as (f0 & Hf0 & Hsrc).
        unfold cell_at in Hf. rewrite Hf0 in Hf. cbn in Hf. congruence.
      * unfold cell_at in *. by rewrite <- (IHout Hc).
    + rewrite lookup_insert_ne by done. split.
      * intros Hc. apply elem_of_cons in Hc as [?|Hc]; [done|]. auto.
      * intros Hc. apply IHout. intros ?. apply Hc. by right.
Qed.

Lemma site_record_num env text cols r c :
  site_record env text cols r -> c ∈ numeric_columns -> c ∈ cols ->
  exists row s f,
    row ∈ rdb_rows text /\ s ∈ row /\
    cell_at r c = Num f /\ py_float env s = Some f.
Proof.
  intros (st & d & Hst & Hd & Hdom & Hr) Hc Hcol.
  destruct (astype_rec_lookup _ _ _ _ Hr c) as [Hin _].
  destruct (Hin Hc) as (f & Hf & Hsrc).
  assert (is_Some (d !! c)) as [s Hs] by (apply elem_of_dom, Hdom, Hcol).
  unfold cell_at in Hsrc. rewrite lookup_fmap, Hs in Hsrc. cbn in Hsrc.
  exists st, s, f. unfold cell_at. rewrite Hf.
  split; [|split; [rewrite Hd in Hs; by eapply dict_of_zip_elem|split; [done|]]].
  - apply list_elem_of_lookup in Hst as [i Hi]. rewrite lookup_drop in Hi.
    apply list_elem_of_lookup. eauto.
  - destruct (py_float env s); congruence.
Qed.

Lemma site_record_str env text cols r c :
  site_record env text cols r -> c ∉ numeric_columns -> c ∈ cols ->
  exists s, cell_at r c = Str s.
Proof.
  intros (st & d & Hst & Hd & Hdom & Hr) Hc Hcol.
  destruct (astype_rec_lookup _ _ _ _ Hr c) as [_ Hout].
  assert (is_Some (d !! c)) as [s Hs] by (apply elem_of_dom, Hdom, Hcol).
  exists s. unfold cell_at. by rewrite (Hout Hc), lookup_fmap, Hs.
Qed.

Lemma read_sites_records env text df :
  read_sites env text = Ok df ->
  "alt_va" ∈ columns df /\
  Forall (site_record env text (columns df)) (records df).
Proof.
  unfold read_sites, filter_sites, drop_where_eq, getattr, astype_float.
  set (r_dict := _ <$> drop 2 (rdb_rows text)).
  destruct (decide ("alt_va" ∈ columns (dropna (from_dict r_dict))))
    as [Halt|]; [|discriminate].
  cbn [rbind columns records].
  set (src := List.filter _ _).
  destruct (check_cols _ _); [|discriminate]. cbn [rbind].
  destruct (mapM _ src) as [rs|] eqn:Hrs; [|discriminate]. cbn [rbind].
  intros [= <-]. cbn [columns records]. split; [exact Halt|].
  apply Forall_forall. intros r' Hr'.
  apply list_elem_of_lookup in Hr' as [i Hi].
  destruct (mapM_lookup _ _ _ Hrs) as [Hlen Hsrc].
  assert (is_Some (src !! i)) as [r Hr].
  { apply lookup_lt_is_Some. rewrite <- Hlen. by eapply lookup_lt_Some. }
  destruct (Hsrc i r Hr) as (r2 & Hr2 & Hconv).
  assert (r2 = r') by congruence. subst r2.
  assert (Hin : In r src).
  { apply list_elem_of_In, list_elem_of_lookup. eauto. }
  apply filter_In in Hin as [Hin _].
  apply list_elem_of_In in Hin. unfold dropna, from_dict in Hin.
  cbn [records columns] in Hin.
  apply list_elem_of_filter in Hin as [Hdom Hin].
  apply list_elem_of_fmap in Hin as (d & -> & Hd).
  apply list_elem_of_fmap in Hd as (st & -> & Hst).
  exists st, (dict_of (zip (hd [] (rdb_rows text)) st)).
  split; [exact Hst|]. split; [done|]. split; [|exact Hconv].
  by rewrite dom_fmap_L in Hdom.
Qed.

Lemma site_point_inv r k p :
  site_point r = Ok (k, p) ->
  cell_at r "site_no" = Str k /\
  cell_at r "dec_long_va" = Num p.1 /\
  cell_at r "dec_lat_va" = Num p.2.
Proof.
  unfold site_point.
  destruct (cell_at r "site_no") as [s|]; [|discriminate].
  destruct (cell_at r "dec_long_va") as [|x]; [discriminate|].
  destruct (cell_at r "dec_lat_va") as [|y]; [discriminate|].
  cbn. intros [= <- <-]. auto.
Qed.

Lemma values0_getattr df c r0 t :
  c ∈ columns df -> records df = r0 :: t ->
  values0 (getattr df c) = Ok (cell_at r0 c) /\
  values0 (getcol df c) = Ok (cell_at r0 c).
Proof.
  intros Hc Hr. unfold values0, getattr, getcol.
  rewrite !decide_True by done. by rewrite Hr.
Qed.

Lemma check_cols_ok df cs :
  check_cols df cs = Ok tt -> forall c, c ∈ cs -> c ∈ columns df.
Proof.
  unfold check_cols. destruct (decide _) as [H|]; [|discriminate].
  intros _ c Hc. by eapply Forall_forall in H.
Qed.

Lemma select_station_spec env text point df rows n :
  "alt_va" ∈ columns df ->
  Forall (site_record env text (columns df)) (records df) ->
  site_points df = Ok rows ->
  NoDup rows.*1 ->
  "alt_datum_cd" ∈ columns df ->
  "station_nm" ∈ columns df ->
  nearest_points env point rows.*2 = Ok n ->
  (exists q, q ∈ rows.*2 /\ geom_equals q n = true) ->
  exists st i r f,
    select_station env point df = Ok st /\
    rows !! i = Some (station_id st, coords st) /\
    geom_equals (coords st) n = true /\
    (forall j k p, rows !! j = Some (k, p) -> geom_equals p n = true -> i <= j) /\
    records df !! i = Some r /\
    cell_at r "alt_va" = Num f /\ altitude st = ft_to_m f /\
    cell_at r "alt_datum_cd" = Str (datum st) /\
    cell_at r "station_nm" = Str (name st).
Proof.
  intros Halt Hrec Hrows Hnd Hdatum Hname Hnear (q & Hq & Hqn).
  (* what site_points tells about the frame *)
  pose proof Hrows as Hsp. unfold site_points in Hsp.
  destruct (check_cols df _) as [[]|] eqn:Hcols; [|discriminate].
  cbn [rbind] in Hsp.
  pose proof (check_cols_ok _ _ Hcols) as Hcol.
  assert (Hc_id : "site_no" ∈ columns df)
    by (apply Hcol, list_elem_of_In; cbn; tauto).
  assert (Hc_lon : "dec_long_va" ∈ columns df)
    by (apply Hcol, list_elem_of_In; cbn; tauto).
  assert (Hc_lat : "dec_lat_va" ∈ columns df)
    by (apply Hcol, list_elem_of_In; cbn; tauto).
  destruct (mapM_lookup _ _ _ Hsp) as [Hlen Hsrc].
  (* the first point that equals the nearest one *)
  apply list_elem_of_fmap in Hq as ([kq pq] & -> & Hq).
  destruct (List.filter (fun kv : string * (float * float) =>
                           geom_equals kv.2 n) rows)
    as [|[k0 p0] flt] eqn:Hflt.
  { exfalso.
    exact (filter_nonempty (fun kv : string * (float * float) =>
                              geom_equals kv.2 n) rows (kq, pq) Hq Hqn Hflt). }
  destruct (filter_head _ _ _ _ Hflt) as (i & Hi & Hp0 & Hmin).
  cbn [snd] in Hp0.
  (* its record *)
  assert (is_Some (records df !! i)) as [r Hr].
  { apply lookup_lt_is_Some. rewrite <- Hlen. by eapply lookup_lt_Some. }
  destruct (Hsrc i r Hr) as (b & Hb & Hpt).
  assert (b = (k0, p0)) by congruence. subst b.
  destruct (site_point_inv _ _ _ Hpt) as (Hid & Hlon & Hlat).
  (* the first record with that id is this one *)
  destruct (List.filter (fun r => cell_eq_str (cell_at r "site_no") k0)
              (records df)) as [|r0 rs] eqn:Hsel.
  { exfalso.
    refine (filter_nonempty (fun r => cell_eq_str (cell_at r "site_no") k0)
              (records df) r _ _ Hsel).
    - apply list_elem_of_lookup. eauto.
    - rewrite Hid. apply String.eqb_refl. }
  destruct (filter_head _ _ _ _ Hsel) as (j & Hj & Hk0 & _).
  destruct (Hsrc j r0 Hj) as ([kj pj] & Hbj & Hptj).
  destruct (site_point_inv _ _ _ Hptj) as (Hidj & _ & _).
  rewrite Hidj in Hk0. apply String.eqb_eq in Hk0. subst kj.
  assert (j = i).
  { eapply (NoDup_lookup _ _ _ _ Hnd); rewrite list_lookup_fmap.
    - by rewrite Hbj.
    - by rewrite Hi. }
  subst j. assert (r0 = r) by congruence. subst r0.
  (* the fields of the record *)
  assert (Hsite : site_record env text (columns df) r).
  { eapply Forall_forall in Hrec; [exact Hrec|].
    apply list_elem_of_lookup. eauto. }
  destruct (site_record_num _ _ _ _ "alt_va" Hsite) as (_ & s & f & _ & _ & Hf & _);
    [apply list_elem_of_In; cbn; tauto|done|].
  destruct (site_record_str _ _ _ _ "alt_datum_cd" Hsite) as (sd & Hsd);
    [intros H%list_elem_of_In; cbn in H; intuition discriminate|done|].
  destruct (site_record_str _ _ _ _ "station_nm" Hsite) as (sn & Hsn);
    [intros H%list_elem_of_In; cbn in H; intuition discriminate|done|].
  exists {| station_id := k0; coords := p0; altitude := ft_to_m f;
            datum := sd; name := sn |}, i, r, f.
  split; [|by repeat split; auto; intros j k p Hj' Hp; eapply (Hmin j (k, p))].
  unfold select_station. rewrite Hrows. cbn [rbind].
  rewrite (odict_NoDup _ Hnd), Hnear. cbn [rbind].
  rewrite Hflt. cbn [fmap list_fmap getitem lookup list_lookup fst rbind].
  unfold where_eq, getattr at 1.
  rewrite decide_True by done.
  cbn [rbind]. 
  set (station := {| columns := columns df; records := _ |}).
  assert (Hst : records station = r :: rs) by exact Hsel.
  assert (Hv : forall c, c ∈ columns df ->
             values0 (getattr station c) = Ok (cell_at r c) /\
             values0 (getcol station c) = Ok (cell_at r c)).
  { intros c Hc. by apply (values0_getattr station c r rs). }
  rewrite (proj1 (Hv "site_no" Hc_id)).
  rewrite Hid. cbn [rbind str_of].
  rewrite (proj1 (Hv "dec_long_va" Hc_lon)).
  rewrite Hlon. cbn [rbind num_of].
  rewrite (proj1 (Hv "dec_lat_va" Hc_lat)).
  rewrite Hlat. cbn [rbind num_of].
  rewrite (proj2 (Hv "alt_va" Halt)), Hf. cbn [rbind float_of].
  rewrite (proj2 (Hv "alt_datum_cd" Hdatum)), Hsd. cbn [rbind str_of].
  rewrite (proj1 (Hv "station_nm" Hname)), Hsn. cbn [rbind str_of].
  by destruct p0.
Qed.

(** Inversion of a successful selection: the altitude is that of a record
    of the frame. *)
Lemma select_station_altitude env point df st :
  select_station env point df = Ok st ->
  exists r alt, r ∈ records df /\
    float_of env (cell_at r "alt_va") = Ok alt /\ altitude st = ft_to_m alt.
Proof.
  unfold select_station.
  destruct (site_points df) as [rows|]; [|discriminate]. cbn [rbind].
  destruct (nearest_points env point _) as [n|]; [|discriminate]. cbn [rbind].
  destruct (getitem _ 0) as [idx|]; [|discriminate]. cbn [rbind].
  unfold where_eq.
  destruct (getattr df "site_no"); [|discriminate]. cbn [rbind].
  set (station := {| columns := columns df; records := _ |}).
  destruct (values0 (getattr station "site_no")); [|discriminate]. cbn [rbind].
  destruct (str_of _); [|discriminate]. cbn [rbind].
  destruct (values0 (getattr station "dec_long_va")); [|discriminate]. cbn [rbind].
  destruct (num_of _); [|discriminate]. cbn [rbind].
  destruct (values0 (getattr station "dec_lat_va")); [|discriminate]. cbn [rbind].
  destruct (num_of _); [|discriminate]. cbn [rbind].
  destruct (values0 (getcol station "alt_va")) as [c_alt|] eqn:Hc; [|discriminate].
  cbn [rbind].
  destruct (float_of env c_alt) as [alt|] eqn:Halt; [|discriminate]. cbn [rbind].
  destruct (values0 (getcol station "alt_datum_cd")); [|discriminate]. cbn [rbind].
  destruct (str_of _); [|discriminate]. cbn [rbind].
  destruct (values0 (getattr station "station_nm")); [|discriminate]. cbn [rbind].
  destruct (str_of _); [|discriminate]. cbn [rbind].
  intros [= <-]. cbn [altitude].
  unfold values0, getcol in Hc.
  destruct (decide _); [|discriminate]. cbn [rbind] in Hc.
  destruct (records station) as [|r rs] eqn:Hrs; [discriminate|].
  cbn in Hc. injection Hc as <-.
  exists r, alt. repeat split; auto.
  assert (In r (records station)) as Hin by (rewrite Hrs; left; done).
  apply filter_In in Hin as [Hin _]. by apply list_elem_of_In.
Qed.

(** The linear scan meets the contract of [nearest_points] on every
    non-empty list of points. *)
Lemma nearest_scan_min p l n :
  nearest_scan p l = Ok n ->
  n ∈ l /\ forall q, q ∈ l -> (dist2 p n <= dist2 p q)%Q.
Proof.
  revert n. induction l as [|a l IH]; intros n H; cbn in H; [discriminate|].
  destruct (nearest_scan p l) as [r|] eqn:Hr.
  - destruct (IH r eq_refl) as [Hin Hmin].
    destruct (Qle_bool (dist2 p a) (dist2 p r)) eqn:Hle; injection H as <-.
    + apply Qle_bool_iff in Hle. split; [left|].
      intros q Hq. apply elem_of_cons in Hq as [->|Hq]; [apply Qle_refl|].
      eapply Qle_trans; [exact Hle|by apply Hmin].
    + split; [by right|].
      intros q Hq. apply elem_of_cons in Hq as [->|Hq]; [|by apply Hmin].
      apply Qlt_le_weak, Qnot_le_lt. intros Hle'.
      apply Qle_bool_iff in Hle'. congruence.
  - injection H as <-.
    destruct l as [|b l];
      [|cbn in Hr; destruct (nearest_scan p l);
        [destruct (Qle_bool _ _)|]; discriminate].
    split; [left|]. intros q Hq.
    apply elem_of_cons in Hq as [->|Hq]; [apply Qle_refl|].
    by apply elem_of_nil in Hq.
Qed.

(** ** Resolution by coordinates *)





(** ** The sign of the converted altitude *)

Lemma shr_1_nonneg mrs : (0 <= shr_m mrs)%Z -> (0 <= shr_m (shr_1 mrs))%Z.
Proof.
  destruct mrs as [m r s]. cbn.
  destruct m as [|p|p]; [cbn; lia| |lia].
  destruct p; cbn; lia.
Qed.

Lemma iter_shr_1_nonneg p : forall mrs,
  (0 <= shr_m mrs)%Z -> (0 <= shr_m (SpecFloat.iter_pos shr_1 p mrs))%Z.
Proof.
  induction p as [p IH|p IH|]; intros mrs H; cbn.
  - apply IH, IH, shr_1_nonneg, H.
  - apply IH, IH, H.
  - apply shr_1_nonneg, H.
Qed.

Lemma shr_fexp_nonneg m e l :
  (0 <= m)%Z -> (0 <= shr_m (shr_fexp prec emax m e l).1)%Z.
Proof.
  intros H. unfold shr_fexp, shr.
  assert (H0 : (0 <= shr_m (shr_record_of_loc m l))%Z).
  { destruct l as [|[]]; cbn; exact H. }
  destruct (fexp prec emax (Zdigits2 m + e) - e)%Z; cbn [fst]; auto.
  apply iter_shr_1_nonneg, H0.
Qed.

Lemma round_nearest_even_nonneg m l :
  (0 <= m)%Z -> (0 <= round_nearest_even m l)%Z.
Proof.
  intros H. unfold round_nearest_even.
  destruct l as [|[]]; try lia. destruct (Z.even m); lia.
Qed.

(** Rounding a non-negative mantissa gives a non-negative float. *)
Lemma binary_round_aux_nonneg m e :
  (0 <= m)%Z ->
  SFleb (S754_zero false) (binary_round_aux prec emax false m e loc_Exact)
  = true.
Proof.
  intros H. unfold binary_round_aux.
  pose proof (shr_fexp_nonneg m e loc_Exact H) as H1.
  destruct (shr_fexp prec emax m e loc_Exact) as [mrs' e']. cbn [fst] in H1.
  pose proof (shr_fexp_nonneg _ e' loc_Exact
                (round_nearest_even_nonneg _ (loc_of_shr_record mrs') H1))
    as H2.
  destruct (shr_fexp prec emax _ e' loc_Exact) as [mrs'' e''].
  cbn [fst] in H2.
  destruct (shr_m mrs'') as [|p|p]; [reflexivity| |lia].
  destruct (e'' <=? emax - prec)%Z; reflexivity.
Qed.

(** The conversion keeps a non-negative altitude non-negative. *)
Lemma ft_to_m_nonneg x :
  (0 <=? x)%float = true -> (0 <=? ft_to_m x)%float = true.
Proof.
  unfold ft_to_m. rewrite !leb_spec, mul_spec.
  change (Prim2SF 0) with (S754_zero false).
  set (c := Prim2SF 0.3048). vm_compute in c. subst c.
  destruct (Prim2SF x) as [s|s| |s m e]; cbn.
  - intros _. destruct s; reflexivity.
  - destruct s; [discriminate|reflexivity].
  - discriminate.
  - destruct s; [discriminate|]. intros _.
    apply binary_round_aux_nonneg. lia.
Qed.

(** The gauge at the Salton Sea lies 228 ft below its datum: its altitude is
    negative. *)
Lemma altitude_below_datum_is_negative :
  get_coords (sample_env below_datum_text) "10254005"
  = Ok {| station_id := "10254005"; coords := (-115.75, 33.25)%float;
          altitude := ft_to_m (-228); datum := "NGVD29";
          name := "Salton Sea near Westmorland" |} /\
  (ft_to_m (-228) <? 0)%float = true.
Proof. split; vm_compute; reflexivity. Qed.

(** * Further properties *)

(** ** The text of an answer *)

Lemma append_cons a (s t : string) :
  (String a s ++ t)%string = String a (s ++ t)%string.
Proof. reflexivity. Qed.

Lemma contains_app c (s t : string) :
  contains c (s ++ t)%string = contains c s || contains c t.
Proof.
  induction s as [|a s IH]; [done|].
  rewrite append_cons. cbn [contains]. by rewrite IH, orb_assoc.
Qed.

Lemma split_no_sep sep s : contains sep s = false -> split sep s = [s].
Proof.
  induction s as [|a s IH]; cbn; [done|].
  intros H. apply orb_false_iff in H as [Ha Hs].
  rewrite Ha, (IH Hs). done.
Qed.

Lemma split_app_sep sep (s t : string) :
  contains sep s = false ->
  split sep (s ++ String sep t)%string = s :: split sep t.
Proof.
  induction s as [|a s IH].
  - intros _. change ("" ++ String sep t)%string with (String sep t).
    cbn [split]. by rewrite Ascii.eqb_refl.
  - rewrite append_cons. cbn [contains split].
    intros H. apply orb_false_iff in H as [Ha Hs].
    rewrite Ha, (IH Hs). done.
Qed.

Lemma split_join sep (l : list string) :
  l <> [] -> Forall (fun s => contains sep s = false) l ->
  split sep (join sep l) = l.
Proof.
  induction l as [|s l IH]; [done|]. intros _ Hl.
  apply Forall_cons in Hl as [Hs Hl].
  destruct l as [|s' l].
  - cbn. by apply split_no_sep.
  - change (join sep (s :: s' :: l))
      with (s ++ String sep (join sep (s' :: l)))%string.
    rewrite split_app_sep by done. f_equal. by apply IH.
Qed.

Lemma contains_join c sep (l : list string) :
  sep <> c ->
  contains c (join sep l) = existsb (contains c) l.
Proof.
  intros Hne. induction l as [|s l IH]; [done|].
  destruct l as [|s' l].
  - cbn. by rewrite orb_false_r.
  - change (join sep (s :: s' :: l))
      with (s ++ String sep (join sep (s' :: l)))%string.
    rewrite contains_app. cbn [contains existsb]. rewrite IH.
    replace (Ascii.eqb sep c) with false; [done|].
    symmetry. by apply Ascii.eqb_neq.
Qed.

Theorem rdb_rows_rdb (lines : list (list string)) :
  lines <> [] -> Forall plain_line lines ->
  rdb_rows (rdb lines) = List.filter (fun l => negb (is_comment l)) lines.
Proof.
  intros Hne Hplain. unfold rdb_rows, rdb.
  rewrite split_join.
  - induction lines as [|l lines IH]; [done|].
    apply Forall_cons in Hplain as [[Hl Hf] Hplain].
    cbn [fmap list_fmap List.filter].
    assert (Htail : split TAB <$> List.filter
                (fun l => negb (contains "#"%char l)) (join TAB <$> lines)
              = List.filter (fun l => negb (is_comment l)) lines).
    { destruct lines as [|l' lines]; [done|]. by apply IH. }
    change (list_fmap _ _ (join TAB) lines) with (join TAB <$> lines).
    rewrite contains_join by (intros H; discriminate H).
    fold (is_comment l). destruct (is_comment l); cbn [negb]; [exact Htail|].
    cbn [fmap list_fmap]. 
    change (list_fmap _ _ (split TAB) ?x) with (split TAB <$> x).
    rewrite Htail. f_equal. apply split_join; [done|].
    eapply Forall_impl; [exact Hf|]. by intros f [? ?].
  - by destruct lines.
  - apply Forall_fmap. eapply Forall_impl; [exact Hplain|].
    intros l [_ Hf]. cbn.
    rewrite contains_join by (intros H; discriminate H).
    apply not_true_is_false. intros Hex.
    apply existsb_exists in Hex as (f & Hin & Hc).
    apply list_elem_of_In in Hin.
    eapply Forall_forall in Hf; [|exact Hin]. destruct Hf. congruence.
Qed.

(** ** Resolution by id *)

(** A successful [get_coords]: everything but the id is read from the third
    non-comment line, under the names of the first; the id is the caller's. *)
Theorem get_coords_ok_inv env sid st :
  get_coords env sid = Ok st ->
  station_id st = sid /\
  exists text header row lon_s lat_s alt_s alt,
    session_get env (Sites sid) = Ok text /\
    rdb_rows text !! 0 = Some header /\
    rdb_rows text !! 2 = Some row /\
    dict_of (zip header row) !! "dec_long_va" = Some lon_s /\
    dict_of (zip header row) !! "dec_lat_va" = Some lat_s /\
    dict_of (zip header row) !! "alt_va" = Some alt_s /\
    py_float env lon_s = Some (coords st).1 /\
    py_float env lat_s = Some (coords st).2 /\
    py_float env alt_s = Some alt /\ altitude st = ft_to_m alt /\
    dict_of (zip header row) !! "alt_datum_cd" = Some (datum st) /\
    dict_of (zip header row) !! "station_nm" = Some (name st).
Proof.
  unfold get_coords, getitem, dict_get, float_of.
  destruct (session_get env (Sites sid)) as [text|] eqn:Hget; [|discriminate].
  cbn [rbind].
  destruct (rdb_rows text !! 0) as [header|] eqn:Hh; [|discriminate].
  cbn [rbind].
  destruct (rdb_rows text !! 2) as [row|] eqn:Hr; [|discriminate].
  cbn [rbind].
  set (station := dict_of (zip header row)).
  destruct (station !! "dec_long_va") as [lon_s|] eqn:H1; [|discriminate].
  cbn [rbind].
  destruct (py_float env lon_s) as [lon|] eqn:Hlon; [|discriminate].
  cbn [rbind].
  destruct (station !! "dec_lat_va") as [lat_s|] eqn:H2; [|discriminate].
  cbn [rbind].
  destruct (py_float env lat_s) as [lat|] eqn:Hlat; [|discriminate].
  cbn [rbind].
  destruct (station !! "alt_va") as [alt_s|] eqn:H3; [|discriminate].
  cbn [rbind].
  destruct (py_float env alt_s) as [alt|] eqn:Halt; [|discriminate].
  cbn [rbind].
  destruct (station !! "alt_datum_cd") as [d|] eqn:H4; [|discriminate].
  cbn [rbind].
  destruct (station !! "station_nm") as [n|] eqn:H5; [|discriminate].
  cbn [rbind].
  intros [= <-]. split; [done|].
  exists text, header, row, lon_s, lat_s, alt_s, alt. cbn. repeat split; done.
Qed.

(** An answer without a data row (an unknown station): [IndexError]. *)
Theorem get_coords_no_row env sid text :
  session_get env (Sites sid) = Ok text ->
  length (rdb_rows text) < 3 ->
  get_coords env sid = Raise IndexError.
Proof.
  intros Hget Hlen. unfold get_coords, getitem. rewrite Hget. cbn [rbind].
  destruct (rdb_rows text !! 0); cbn [rbind]; [|done].
  by rewrite (lookup_ge_None_2 _ 2) by lia.
Qed.

(** A station whose altitude field does not read as a float, as the empty
    field of a station without altitude: [ValueError]. *)
Theorem get_coords_bad_altitude env sid text header row lon_s lat_s alt_s :
  session_get env (Sites sid) = Ok text ->
  rdb_rows text !! 0 = Some header ->
  rdb_rows text !! 2 = Some row ->
  dict_of (zip header row) !! "dec_long_va" = Some lon_s ->
  dict_of (zip header row) !! "dec_lat_va" = Some lat_s ->
  dict_of (zip header row) !! "alt_va" = Some alt_s ->
  py_float env alt_s = None ->
  get_coords env sid = Raise ValueError.
Proof.
  intros Hget Hh Hr Hlon Hlat Halt Hbad.
  unfold get_coords, getitem, dict_get, float_of.
  rewrite Hget. cbn [rbind]. rewrite Hh, Hr. cbn [rbind].
  rewrite Hlon. cbn [rbind].
  destruct (py_float env lon_s); cbn [rbind]; [|done].
  rewrite Hlat. cbn [rbind].
  destruct (py_float env lat_s); cbn [rbind]; [|done].
  rewrite Halt. cbn [rbind]. by rewrite Hbad.
Qed.

(** When the request itself raises, [get_coords] raises the same exception
    and [get_id] raises [NameError], whatever the exception was. *)
Theorem transport_failure env sid point e e' :
  session_get env (Sites sid) = Raise e ->
  session_get env (search_box point) = Raise e' ->
  get_coords env sid = Raise e /\ get_id env point = Raise NameError.
Proof.
  intros H1 H2. unfold get_coords, get_id. by rewrite H1, H2.
Qed.

(** ** More on the resolution by coordinates *)

Lemma read_sites_candidates env text df :
  read_sites env text = Ok df ->
  Forall (fun c => c ∈ columns df) numeric_columns /\
  Forall (candidate_row env text (columns df)) (records df).
Proof.
  unfold read_sites, filter_sites, drop_where_eq, getattr, astype_float.
  set (r_dict := _ <$> drop 2 (rdb_rows text)).
  destruct (decide ("alt_va" ∈ columns (dropna (from_dict r_dict))))
    as [Halt|]; [|discriminate].
  cbn [rbind columns records].
  set (src := List.filter _ _).
  destruct (check_cols _ _) as [[]|] eqn:Hcols; [|discriminate].
  cbn [rbind].
  destruct (mapM _ src) as [rs|] eqn:Hrs; [|discriminate]. cbn [rbind].
  intros [= <-]. cbn [columns records]. split.
  { apply Forall_forall. intros c Hc.
    by apply (check_cols_ok _ _ Hcols). }
  apply Forall_forall. intros r' Hr'.
  apply list_elem_of_lookup in Hr' as [i Hi].
  destruct (mapM_lookup _ _ _ Hrs) as [Hlen Hsrc].
  assert (is_Some (src !! i)) as [r Hr].
  { apply lookup_lt_is_Some. rewrite <- Hlen. by eapply lookup_lt_Some. }
  destruct (Hsrc i r Hr) as (r2 & Hr2 & Hconv).
  assert (r2 = r') by congruence. subst r2.
  assert (Hin : In r src).
  { apply list_elem_of_In, list_elem_of_lookup. eauto. }
  apply filter_In in Hin as [Hin Hne].
  apply list_elem_of_In in Hin. unfold dropna, from_dict in Hin.
  cbn [records columns] in Hin.
  apply list_elem_of_filter in Hin as [Hdom Hin].
  apply list_elem_of_fmap in Hin as (d & -> & Hd).
  apply list_elem_of_fmap in Hd as (st & -> & Hst).
  exists st, (dict_of (zip (hd [] (rdb_rows text)) st)).
  split; [exact Hst|]. split; [done|].
  split; [by rewrite dom_fmap_L in Hdom|]. split; [|exact Hconv].
  intros Hempty. unfold cell_at in Hne.
  rewrite lookup_fmap, Hempty in Hne. discriminate.
Qed.

(** A successful selection reads every attribute from one record. *)
Lemma select_station_inv env point df st :
  select_station env point df = Ok st ->
  exists r alt,
    r ∈ records df /\
    cell_at r "site_no" = Str (station_id st) /\
    cell_at r "dec_long_va" = Num (coords st).1 /\
    cell_at r "dec_lat_va" = Num (coords st).2 /\
    float_of env (cell_at r "alt_va") = Ok alt /\
    altitude st = ft_to_m alt /\
    cell_at r "alt_datum_cd" = Str (datum st) /\
    cell_at r "station_nm" = Str (name st).
Proof.
  unfold select_station.
  destruct (site_points df) as [rows|]; [|discriminate]. cbn [rbind].
  destruct (nearest_points env point _) as [n|]; [|discriminate]. cbn [rbind].
  destruct (getitem _ 0) as [idx|]; [|discriminate]. cbn [rbind].
  unfold where_eq.
  destruct (getattr df "site_no"); [|discriminate]. cbn [rbind].
  set (station := {| columns := columns df; records := _ |}).
  assert (Hcell : forall k c,
             values0 (getattr station k) = Ok c \/
             values0 (getcol station k) = Ok c ->
             exists r rs, records station = r :: rs /\ c = cell_at r k).
  { intros k c. unfold values0, getattr, getcol.
    destruct (decide (k ∈ columns station)); [|by intros [|]].
    cbn [rbind]. destruct (records station) as [|r rs]; [by intros [|]|].
    cbn. intros [[= <-]|[= <-]]; eauto. }
  destruct (values0 (getattr station "site_no")) as [c1|] eqn:H1;
    [|discriminate]. cbn [rbind].
  destruct (str_of c1) as [k|] eqn:Hk; [|discriminate]. cbn [rbind].
  destruct (values0 (getattr station "dec_long_va")) as [c2|] eqn:H2;
    [|discriminate]. cbn [rbind].
  destruct (num_of c2) as [lon|] eqn:Hlon; [|discriminate]. cbn [rbind].
  destruct (values0 (getattr station "dec_lat_va")) as [c3|] eqn:H3;
    [|discriminate]. cbn [rbind].
  destruct (num_of c3) as [lat|] eqn:Hlat; [|discriminate]. cbn [rbind].
  destruct (values0 (getcol station "alt_va")) as [c4|] eqn:H4;
    [|discriminate]. cbn [rbind].
  destruct (float_of env c4) as [alt|] eqn:Halt; [|discriminate].
  cbn [rbind].
  destruct (values0 (getcol station "alt_datum_cd")) as [c5|] eqn:H5;
    [|discriminate]. cbn [rbind].
  destruct (str_of c5) as [dm|] eqn:Hdm; [|discriminate]. cbn [rbind].
  destruct (values0 (getattr station "station_nm")) as [c6|] eqn:H6;
    [|discriminate]. cbn [rbind].
  destruct (str_of c6) as [nm|] eqn:Hnm; [|discriminate]. cbn [rbind].
  intros [= <-]. cbn [station_id coords altitude datum name fst snd].
  destruct (Hcell _ _ (or_introl H1)) as (r & rs & Hrs & ->).
  destruct (Hcell _ _ (or_introl H2)) as (r2 & rs2 & Hrs2 & ->).
  destruct (Hcell _ _ (or_introl H3)) as (r3 & rs3 & Hrs3 & ->).
  destruct (Hcell _ _ (or_intror H4)) as (r4 & rs4 & Hrs4 & ->).
  destruct (Hcell _ _ (or_intror H5)) as (r5 & rs5 & Hrs5 & ->).
  destruct (Hcell _ _ (or_introl H6)) as (r6 & rs6 & Hrs6 & ->).
  assert (r2 = r /\ r3 = r /\ r4 = r /\ r5 = r /\ r6 = r)
    as (-> & -> & -> & -> & ->) by (repeat split; congruence).
  exists r, alt. split.
  { assert (In r (records station)) as Hin by (rewrite Hrs; by left).
    apply filter_In in Hin as [Hin _]. by apply list_elem_of_In. }
  destruct (cell_at r "site_no"); [|discriminate].
  destruct (cell_at r "dec_long_va"); [discriminate|].
  destruct (cell_at r "dec_lat_va"); [discriminate|].
  destruct (cell_at r "alt_datum_cd"); [|discriminate].
  destruct (cell_at r "station_nm"); [|discriminate].
  cbn in *. repeat split; congruence.
Qed.

Lemma cell_at_Str (r : gmap string cell) c s :
  cell_at r c = Str s -> r !! c = Some (Str s).
Proof. unfold cell_at. destruct (r !! c); cbn; congruence. Qed.

Lemma astype_rec_num env (d : gmap string string) r c f :
  astype_rec env numeric_columns (Str <$> d) = Ok r ->
  c ∈ numeric_columns -> c ∈ dom d ->
  cell_at r c = Num f ->
  exists s, d !! c = Some s /\ py_float env s = Some f.
Proof.
  intros Hr Hc Hdom Hf.
  destruct (astype_rec_lookup _ _ _ _ Hr c) as [Hin _].
  destruct (Hin Hc) as (f' & Hf' & Hsrc).
  unfold cell_at in Hf. rewrite Hf' in Hf. cbn in Hf. injection Hf as ->.
  apply elem_of_dom in Hdom as [s Hs]. exists s. split; [done|].
  unfold cell_at in Hsrc. rewrite lookup_fmap, Hs in Hsrc. cbn in Hsrc.
  destruct (py_float env s); congruence.
Qed.

Lemma no_numeric c :
  c = "site_no" \/ c = "alt_datum_cd" \/ c = "station_nm" ->
  c ∉ numeric_columns.
Proof.
  intros Hc Hin. apply list_elem_of_In in Hin. cbn in Hin.
  destruct Hc as [-> | [-> | ->]]; intuition discriminate.
Qed.

(** Every attribute of a station found by [get_id] is read from one and the
    same data row of the answer, and that row has a non-empty altitude. *)
Lemma get_id_row env point st :
  get_id env point = Ok st ->
  exists text row lon_s lat_s alt_s alt,
    session_get env (search_box point) = Ok text /\
    row ∈ drop 2 (rdb_rows text) /\
    let d := dict_of (zip (hd [] (rdb_rows text)) row) in
    d !! "site_no" = Some (station_id st) /\
    d !! "dec_long_va" = Some lon_s /\
    py_float env lon_s = Some (coords st).1 /\
    d !! "dec_lat_va" = Some lat_s /\
    py_float env lat_s = Some (coords st).2 /\
    d !! "alt_va" = Some alt_s /\ alt_s <> "" /\
    py_float env alt_s = Some alt /\ altitude st = ft_to_m alt /\
    d !! "alt_datum_cd" = Some (datum st) /\
    d !! "station_nm" = Some (name st).
Proof.
  unfold get_id.
  destruct (session_get env (search_box point)) as [text|] eqn:Hget;
    [|discriminate]. cbn [rbind].
  destruct (read_sites env text) as [df|] eqn:Hdf; [|discriminate].
  cbn [rbind]. intros Hsel.
  destruct (read_sites_candidates _ _ _ Hdf) as [Hnum Hcand].
  destruct (select_station_inv _ _ _ _ Hsel)
    as (r & alt & Hr & Hid & Hlon & Hlat & Halt & Ha & Hdm & Hnm).
  eapply Forall_forall in Hcand; [|exact Hr].
  destruct Hcand as (row & d & Hrow & Hd & Hdom & Hne & Hconv).
  assert (Hcol : forall c, c ∈ numeric_columns -> c ∈ dom d).
  { intros c Hc. apply Hdom. by eapply Forall_forall in Hnum. }
  assert (Hstr : forall c s,
             c = "site_no" \/ c = "alt_datum_cd" \/ c = "station_nm" ->
             cell_at r c = Str s -> d !! c = Some s).
  { intros c s Hc Hs. apply no_numeric in Hc.
    destruct (astype_rec_lookup _ _ _ _ Hconv c) as [_ Hout].
    apply cell_at_Str in Hs. rewrite (Hout Hc), lookup_fmap in Hs.
    destruct (d !! c); cbn in Hs; congruence. }
  assert (Hn1 : "dec_long_va" ∈ numeric_columns)
    by (apply list_elem_of_In; cbn; tauto).
  assert (Hn2 : "dec_lat_va" ∈ numeric_columns)
    by (apply list_elem_of_In; cbn; tauto).
  assert (Hn3 : "alt_va" ∈ numeric_columns)
    by (apply list_elem_of_In; cbn; tauto).
  destruct (astype_rec_num _ _ _ _ _ Hconv Hn1 (Hcol _ Hn1) Hlon)
    as (lon_s & Hlon_s & Hlon_f).
  destruct (astype_rec_num _ _ _ _ _ Hconv Hn2 (Hcol _ Hn2) Hlat)
    as (lat_s & Hlat_s & Hlat_f).
  destruct (astype_rec_lookup _ _ _ _ Hconv "alt_va") as [Hin _].
  destruct (Hin Hn3) as (f & Hf & _).
  assert (Hcell : cell_at r "alt_va" = Num f)
    by (unfold cell_at; by rewrite Hf).
  rewrite Hcell in Halt. cbn in Halt. injection Halt as ->.
  destruct (astype_rec_num _ _ _ _ _ Hconv Hn3 (Hcol _ Hn3) Hcell)
    as (alt_s & Halt_s & Halt_f).
  exists text, row, lon_s, lat_s, alt_s, alt. subst d.
  split; [done|]. split; [done|]. cbn zeta.
  repeat split; auto.
  intros ->. by apply Hne.
Qed.

Lemma get_coords_unfold env sid :
  get_coords env sid
  = let* text := session_get env (Sites sid) in
    let* header := getitem (rdb_rows text) 0 in
    let* row := getitem (rdb_rows text) 2 in
    station_of_row env sid header row.
Proof. reflexivity. Qed.

(** [get_id] returns what [get_coords] would read from one data row of the
    box answer: the row of the station found, with a non-empty altitude. *)
Theorem get_id_single_row env point st :
  get_id env point = Ok st ->
  exists text row,
    session_get env (search_box point) = Ok text /\
    row ∈ drop 2 (rdb_rows text) /\
    dict_of (zip (hd [] (rdb_rows text)) row) !! "site_no"
    = Some (station_id st) /\
    dict_of (zip (hd [] (rdb_rows text)) row) !! "alt_va" <> Some "" /\
    station_of_row env (station_id st) (hd [] (rdb_rows text)) row = Ok st.
Proof.
  intros Hrun.
  destruct (get_id_row _ _ _ Hrun)
    as (text & row & lon_s & lat_s & alt_s & alt & Hget & Hrow & Hid & Hlon
        & Hlonf & Hlat & Hlatf & Halt & Hne & Haltf & Ha & Hdm & Hnm).
  exists text, row. split; [done|]. split; [done|]. split; [done|].
  split; [rewrite Halt; congruence|].
  unfold station_of_row, dict_get, float_of.
  rewrite Hlon. cbn [rbind]. rewrite Hlonf. cbn [rbind].
  rewrite Hlat. cbn [rbind]. rewrite Hlatf. cbn [rbind].
  rewrite Halt. cbn [rbind]. rewrite Haltf. cbn [rbind].
  rewrite Hdm. cbn [rbind]. rewrite Hnm. cbn [rbind].
  destruct st as [sid [lon lat] a dm nm]. cbn in *. by subst a.
Qed.

(** The two directions agree: when the service answers the query for the id
    that [get_id] found with the header and the row of the box answer,
    [get_coords] returns the very record that [get_id] returned. *)
Theorem get_id_get_coords_agree env point st :
  get_id env point = Ok st ->
  exists text row,
    session_get env (search_box point) = Ok text /\
    row ∈ drop 2 (rdb_rows text) /\
    dict_of (zip (hd [] (rdb_rows text)) row) !! "site_no"
    = Some (station_id st) /\
    forall text',
      session_get env (Sites (station_id st)) = Ok text' ->
      rdb_rows text' !! 0 = Some (hd [] (rdb_rows text)) ->
      rdb_rows text' !! 2 = Some row ->
      get_coords env (station_id st) = Ok st.
Proof.
  intros Hrun.
  destruct (get_id_row _ _ _ Hrun)
    as (text & row & lon_s & lat_s & alt_s & alt & Hget & Hrow & Hid & Hlon
        & Hlonf & Hlat & Hlatf & Halt & Hne & Haltf & Ha & Hdm & Hnm).
  exists text, row. split; [done|]. split; [done|]. split; [done|].
  intros text' Hget' Hh Hr.
  unfold get_coords, getitem, dict_get, float_of.
  rewrite Hget'. cbn [rbind]. rewrite Hh, Hr. cbn [rbind].
  rewrite Hlon. cbn [rbind]. rewrite Hlonf. cbn [rbind].
  rewrite Hlat. cbn [rbind]. rewrite Hlatf. cbn [rbind].
  rewrite Halt. cbn [rbind]. rewrite Haltf. cbn [rbind].
  rewrite Hdm. cbn [rbind]. rewrite Hnm. cbn [rbind].
  destruct st as [sid [lon lat] a dm nm]. cbn in *. by subst a.
Qed.

Lemma astype_rec_raises env cs r e :
  astype_rec env cs r = Raise e -> e = ValueError.
Proof.
  induction cs as [|c cs IH]; [discriminate|].
  rewrite astype_rec_cons.
  destruct (astype_rec env cs r) as [r'|e']; cbn [rbind].
  - unfold float_of. destruct (cell_at r' c) as [s|f]; cbn [rbind];
      [|discriminate].
    destruct (py_float env s); cbn [rbind]; [discriminate|congruence].
  - intros [= <-]. by apply IH.
Qed.

Lemma mapM_raises {A B} (f : A -> result B) (l : list A) e :
  mapM f l = Raise e -> exists a, a ∈ l /\ f a = Raise e.
Proof.
  induction l as [|a l IH]; [discriminate|]. cbn.
  destruct (f a) as [b|e'] eqn:Hb; cbn [rbind].
  - destruct (mapM f l) as [bs|e'']; cbn [rbind]; [discriminate|].
    intros [= <-]. destruct IH as (a' & Hin & Ha'); [done|].
    exists a'. split; [by right|done].
  - intros [= <-]. exists a. split; [left|done].
Qed.

(** One candidate with a numeric field that does not read as a float makes
    the whole lookup fail, wherever that candidate lies in the box. *)
Theorem get_id_bad_number env point text df r c s :
  session_get env (search_box point) = Ok text ->
  filter_sites text = Ok df ->
  Forall (fun c => c ∈ columns df) numeric_columns ->
  r ∈ records df ->
  c ∈ numeric_columns ->
  r !! c = Some (Str s) ->
  py_float env s = None ->
  get_id env point = Raise ValueError.
Proof.
  intros Hget Hdf Hcols Hr Hc Hs Hbad.
  unfold get_id, read_sites, astype_float, check_cols.
  rewrite Hget. cbn [rbind]. rewrite Hdf. cbn [rbind].
  rewrite decide_True by done. cbn [rbind].
  destruct (mapM _ (records df)) as [rs|e] eqn:Hrs; cbn [rbind].
  - exfalso. destruct (mapM_lookup _ _ _ Hrs) as [_ Hsrc].
    apply list_elem_of_lookup in Hr as [i Hi].
    destruct (Hsrc i r Hi) as (r' & _ & Hconv).
    destruct (astype_rec_lookup _ _ _ _ Hconv c) as [Hin _].
    destruct (Hin Hc) as (f & _ & Hf).
    unfold cell_at in Hf. rewrite Hs in Hf. cbn in Hf.
    rewrite Hbad in Hf. discriminate.
  - apply mapM_raises in Hrs as (a & _ & Ha).
    by rewrite (astype_rec_raises _ _ _ _ Ha).
Qed.

Lemma ltb_irrefl (s : string) : String.ltb s s = false.
Proof.
  unfold String.ltb. pose proof (String.compare_antisym s s) as H.
  destruct (String.compare s s); done.
Qed.

Lemma StronglySorted_lookup {A} (R : A -> A -> Prop) (l : list A) i j a b :
  StronglySorted R l -> i < j -> l !! i = Some a -> l !! j = Some b -> R a b.
Proof.
  intros Hs. revert i j. induction Hs as [|x l Hs IH Hall]; intros i j Hij Hi Hj.
  - by destruct i.
  - destruct j as [|j]; [lia|]. cbn in Hj.
    destruct i as [|i]; cbn in Hi.
    + injection Hi as <-. eapply Forall_forall in Hall; [exact Hall|].
      apply list_elem_of_lookup. eauto.
    + apply (IH i j); [lia|done|done].
Qed.

Lemma ids_increasing_NoDup rows : ids_increasing rows -> NoDup rows.*1.
Proof.
  unfold ids_increasing. intros Hs. apply NoDup_alt. intros i j k Hi Hj.
  destruct (Nat.lt_trichotomy i j) as [Hlt|[->|Hlt]]; [|done|].
  - pose proof (StronglySorted_lookup _ _ _ _ _ _ Hs Hlt Hi Hj) as H.
    cbn beta in H. by rewrite ltb_irrefl in H.
  - pose proof (StronglySorted_lookup _ _ _ _ _ _ Hs Hlt Hj Hi) as H.
    cbn beta in H. by rewrite ltb_irrefl in H.
Qed.

(** When the answer lists its stations by increasing id, the station found
    has the smallest id among the candidates at the nearest point. *)
Theorem get_id_sorted_ties env point text df rows n :
  session_get env (search_box point) = Ok text ->
  read_sites env text = Ok df ->
  site_points df = Ok rows ->
  ids_increasing rows ->
  "alt_datum_cd" ∈ columns df ->
  "station_nm" ∈ columns df ->
  nearest_points env point rows.*2 = Ok n ->
  (exists q, q ∈ rows.*2 /\ geom_equals q n = true) ->
  exists st,
    get_id env point = Ok st /\
    geom_equals (coords st) n = true /\
    forall k p, (k, p) ∈ rows -> geom_equals p n = true ->
                k = station_id st \/ String.ltb (station_id st) k = true.
Proof.
  intros Hget Hdf Hrows Hinc Hdatum Hname Hnear Hmem.
  destruct (read_sites_records _ _ _ Hdf) as [Halt Hrec].
  destruct (select_station_spec env text point df rows n Halt Hrec Hrows
              (ids_increasing_NoDup _ Hinc) Hdatum Hname Hnear Hmem)
    as (st & i & r & f & Hsel & Hi & Heq & Hfirst & _).
  exists st. split; [|split; [done|]].
  - unfold get_id. rewrite Hget. cbn [rbind]. rewrite Hdf. exact Hsel.
  - intros k p Hin Hp. apply list_elem_of_lookup in Hin as [j Hj].
    pose proof (Hfirst j k p Hj Hp) as Hle.
    destruct (decide (i = j)) as [->|Hne]; [left; congruence|right].
    apply (StronglySorted_lookup _ rows.*1 i j (station_id st) k Hinc);
      [lia| |]; rewrite list_lookup_fmap.
    + by rewrite Hi.
    + by rewrite Hj.
Qed.

(** ** More on the construction *)

Lemma init_unfold env a w :
  __init__ env a w =
    match to_datetime env (arg_start a), to_datetime env (arg_end a) with
    | Some t1, Some t2 =>
        match resolve_station env a with
        | Ok info => construct env a t1 t2 info w
        | Raise e => (Raise e, w)
        end
    | _, _ => (Raise ValueError, w)
    end.
Proof.
  unfold __init__, parse_date, resolve_station, construct, ensure_dir.
  destruct (to_datetime env (arg_start a)) as [t1|]; [|done].
  destruct (to_datetime env (arg_end a)) as [t2|]; [|done].
  unfold bind at 1 2 3. unfold lift at 1 2.
  destruct (arg_station_id a) as [sid|], (arg_coords a) as [c|];
    unfold lift, raise; try done.
  - destruct (get_coords env sid) as [st|]; [|done]. by destruct (coords st).
  - destruct (get_id env c) as [st|]; [|done]. by destruct (coords st).
Qed.

(** A failed resolution fails the construction with the same exception,
    before any directory is looked at or created. *)
Theorem init_resolution_failure env a w e :
  is_Some (to_datetime env (arg_start a)) ->
  is_Some (to_datetime env (arg_end a)) ->
  resolve_station env a = Raise e ->
  __init__ env a w = (Raise e, w).
Proof.
  intros [t1 H1] [t2 H2] Hres. by rewrite init_unfold, H1, H2, Hres.
Qed.

(** ** Effects of a watershed resolution *)

Lemma get_watershed_cases env sid dir w :
  (exists e calls,
     get_watershed env sid dir w
     = (Raise e, {| dirs := dirs w; files := files w; writable := writable w;
                    stdout := stdout w;
                    nldi_calls := nldi_calls w ++ calls |})) \/
  (exists id tribs main fl,
     nldi_comid (nldi env sid) = Ok id /\
     get_river_network (nldi env sid) upstreamTributaries = Ok tribs /\
     get_river_network (nldi env sid) upstreamMain = Ok main /\
     get_nhdplus_byid (nldi env sid) tribs = Ok fl).
Proof.
  unfold get_watershed, bind, remote.
  destruct (nldi_comid (nldi env sid)) as [id|e]; [|left; eauto].
  destruct (get_river_network (nldi env sid) upstreamTributaries)
    as [tribs|e]; cbn [nldi_calls dirs files writable stdout].
  2: { left. exists e. eexists. rewrite <- app_assoc. reflexivity. }
  destruct (get_river_network (nldi env sid) upstreamMain) as [main|e];
    cbn [nldi_calls dirs files writable stdout].
  2: { left. exists e. eexists. rewrite <- !app_assoc. reflexivity. }
  destruct (get_nhdplus_byid (nldi env sid) tribs) as [fl|e] eqn:Hfl;
    cbn [nldi_calls dirs files writable stdout].
  2: { left. exists e. eexists. rewrite <- !app_assoc. reflexivity. }
  right. exists id, tribs, main, fl. auto.
Qed.

(** [get_watershed] creates no directory, changes no file but the geometry
    file of its directory, and leaves that file alone when it exists: a
    cached geometry is never overwritten.  It only adds to what was printed
    and to the calls made. *)
Theorem get_watershed_frame env sid dir w :
  let w' := (get_watershed env sid dir w).2 in
  dirs w' = dirs w /\
  writable w' = writable w /\
  (forall p, p <> geom_path dir -> files w' !! p = files w !! p) /\
  (exists_in w (geom_path dir) = true -> files w' = files w) /\
  (exists out, stdout w' = stdout w ++ out) /\
  (exists calls, nldi_calls w' = nldi_calls w ++ calls).
Proof.
  cbn zeta.
  destruct (get_watershed_cases env sid dir w)
    as [(e & calls & ->)|(id & tribs & main & fl & Hid & Htr & Hmain & Hfl)].
  { cbn. repeat split; auto.
    - exists []. by rewrite app_nil_r.
    - eauto. }
  rewrite (get_watershed_unfold _ _ _ _ _ _ _ _ Hid Htr Hmain Hfl).
  destruct (exists_in w (geom_path dir)).
  - unfold bind, read_file, lift, ret. cbn [files after_network].
    destruct (files w !! geom_path dir) as [gdf|];
      [destruct (getitem gdf 0)|]; cbn; repeat split; auto;
      try (exists []; by rewrite app_nil_r); eauto.
  - unfold bind, print, remote, to_file, lift, ret.
    cbn [dirs files writable stdout nldi_calls after_network].
    destruct (basin (nldi env sid)) as [geom|];
      [destruct (getitem geom 0); [destruct (can_write _ _)|]|];
      cbn; repeat split; auto; try discriminate; try (rewrite <- !app_assoc; eauto);
      eauto.
    intros p Hp. by rewrite lookup_insert_ne.
Qed.

(** A basin without a geometry: the resolution raises [IndexError] after the
    basin request, and no geometry file is written. *)
Theorem watershed_empty_basin env sid dir w id tribs main fl :
  nldi_comid (nldi env sid) = Ok id ->
  get_river_network (nldi env sid) upstreamTributaries = Ok tribs ->
  get_river_network (nldi env sid) upstreamMain = Ok main ->
  get_nhdplus_byid (nldi env sid) tribs = Ok fl ->
  exists_in w (geom_path dir) = false ->
  basin (nldi env sid) = Ok [] ->
  let run := get_watershed env sid dir w in
  run.1 = Raise IndexError /\
  files run.2 = files w /\
  stdout run.2 = stdout w ++ [MsgDownloading sid] /\
  nldi_calls run.2 = nldi_calls w ++ network_calls sid tribs ++ [CallBasin sid].
Proof.
  intros Hid Htr Hmain Hfl Hmiss Hbasin. cbn zeta.
  rewrite (get_watershed_unfold _ _ _ _ _ _ _ _ Hid Htr Hmain Hfl), Hmiss.
  unfold bind, print, remote, lift. rewrite Hbasin. cbn.
  by rewrite <- app_assoc.
Qed.

(** ** Construction, step by step *)

Lemma ancestors_self (p : list string) : p ∈ ancestors p.
Proof.
  induction p as [|c p IH]; cbn; [left|].
  right. apply list_elem_of_fmap. eauto.
Qed.

Lemma get_watershed_ok_world env sid dir w ws w' :
  get_watershed env sid dir w = (Ok ws, w') ->
  dirs w' = dirs w /\
  exists gdf, files w' !! geom_path dir = Some gdf /\
              getitem gdf 0 = Ok (ws_geometry ws).
Proof.
  intros Hrun.
  destruct (get_watershed_ok_inv _ _ _ _ _ _ Hrun)
    as (Hid & Htr & Hmain & Hfl & _).
  rewrite (get_watershed_unfold _ _ _ _ _ _ _ _ Hid Htr Hmain Hfl) in Hrun.
  destruct (exists_in w (geom_path dir));
    unfold bind, read_file, print, remote, to_file, lift, ret in Hrun;
    cbn [dirs files writable stdout nldi_calls after_network] in Hrun.
  - destruct (files w !! geom_path dir) as [gdf|] eqn:Hf; [|discriminate].
    destruct (getitem gdf 0) as [g|] eqn:Hg; [|discriminate].
    injection Hrun as <- <-. cbn. eauto.
  - destruct (basin (nldi env sid)) as [geom|]; [|discriminate].
    destruct (getitem geom 0) as [g|] eqn:Hg; [|discriminate].
    destruct (can_write _ _); [|discriminate].
    injection Hrun as <- <-. cbn. split; [done|].
    exists geom. by rewrite lookup_insert_eq.
Qed.

(** The directory step of [construct]: it goes on only with the directory in
    place. *)
Lemma ensure_dir_ok (sid : string) (p : list string) w w1 :
  ensure_dir sid p w = (Ok tt, w1) ->
  p ∈ dirs w1 /\ files w1 = files w /\ stdout w1 = stdout w /\
  nldi_calls w1 = nldi_calls w /\ writable w1 = writable w /\
  (p ∈ dirs w -> w1 = w).
Proof.
  unfold ensure_dir, bind, is_dir, try_except, makedirs, unbound_name_d,
    raise, ret.
  destruct (bool_decide (p ∈ dirs w)) eqn:Hd; cbn [negb].
  - intros [= <-]. apply bool_decide_eq_true in Hd. auto 10.
  - apply bool_decide_eq_false in Hd.
    destruct (_ && _ && _); cbn; [|discriminate].
    intros [= <-]. cbn. repeat split; try done.
    apply elem_of_union. right. apply elem_of_list_to_set, ancestors_self.
Qed.

(** A constructed [Station] is consistent: exactly one of id and coordinates
    was given, the record is the one resolved from it, the watershed was
    resolved for the id of that record in [data_dir/id], and afterwards that
    directory exists and its geometry file holds the station's geometry. *)
Theorem init_ok_inv env a w s w' :
  __init__ env a w = (Ok s, w') ->
  ((arg_station_id a = None /\ is_Some (arg_coords a)) \/
   (is_Some (arg_station_id a) /\ arg_coords a = None)) /\
  resolve_station env a = Ok (info s) /\
  data_dir s = [arg_data_dir a; station_id (info s)] /\
  (lon s, lat s) = coords (info s) /\
  (exists w1 w2,
      get_watershed env (station_id (info s)) (data_dir s) w1
      = (Ok (watershed s), w2)) /\
  data_dir s ∈ dirs w' /\
  exists gdf, files w' !! geom_path (data_dir s) = Some gdf /\
              getitem gdf 0 = Ok (ws_geometry (watershed s)).
Proof.
  rewrite init_unfold.
  destruct (to_datetime env (arg_start a)) as [t1|]; [|discriminate].
  destruct (to_datetime env (arg_end a)) as [t2|]; [|discriminate].
  destruct (resolve_station env a) as [st|] eqn:Hres; [|discriminate].
  unfold construct. unfold bind at 1.
  destruct (ensure_dir (station_id st) [arg_data_dir a; station_id st] w)
    as [[[]|e] w1] eqn:Hdir; [|discriminate].
  apply ensure_dir_ok in Hdir as (Hin & Hfiles & _).
  unfold bind at 1.
  destruct (get_watershed env (station_id st) _ w1) as [[ws|e] w2] eqn:Hws;
    [|discriminate].
  unfold bind, print, ret. intros [= <- <-].
  cbn [info data_dir lon lat watershed dirs files].
  destruct (get_watershed_ok_world _ _ _ _ _ _ Hws) as (Hdirs & gdf & Hf & Hg).
  split.
  { unfold resolve_station in Hres.
    destruct (arg_station_id a), (arg_coords a); try discriminate;
      [right|left]; split; by eauto. }
  split; [done|]. split; [done|]. split; [by destruct (coords st)|].
  split; [by eauto|]. split; [by rewrite Hdirs|]. eauto.
Qed.

(** Once the directory of the station and its geometry file exist, a
    construction needs no write access: it returns the cached geometry, makes
    no basin request and leaves directories and files as they were. *)
Theorem init_cached env a w st id tribs main fl g gdf :
  is_Some (to_datetime env (arg_start a)) ->
  is_Some (to_datetime env (arg_end a)) ->
  resolve_station env a = Ok st ->
  [arg_data_dir a; station_id st] ∈ dirs w ->
  files w !! geom_path [arg_data_dir a; station_id st] = Some (g :: gdf) ->
  nldi_comid (nldi env (station_id st)) = Ok id ->
  get_river_network (nldi env (station_id st)) upstreamTributaries = Ok tribs ->
  get_river_network (nldi env (station_id st)) upstreamMain = Ok main ->
  get_nhdplus_byid (nldi env (station_id st)) tribs = Ok fl ->
  exists s w',
    __init__ env a w = (Ok s, w') /\
    info s = st /\ ws_geometry (watershed s) = g /\
    dirs w' = dirs w /\ files w' = files w /\
    nldi_calls w' = nldi_calls w ++ network_calls (station_id st) tribs.
Proof.
  intros [t1 H1] [t2 H2] Hres Hdir Hfile Hid Htr Hmain Hfl.
  rewrite init_unfold, H1, H2, Hres. unfold construct, ensure_dir.
  unfold bind at 1. unfold bind at 1. unfold is_dir at 1.
  rewrite bool_decide_eq_true_2 by done. cbn [negb]. unfold ret at 1.
  unfold bind at 1.
  rewrite (get_watershed_unfold _ _ _ _ _ _ _ _ Hid Htr Hmain Hfl).
  assert (Hex : exists_in w (geom_path [arg_data_dir a; station_id st]) = true).
  { unfold exists_in. apply orb_true_iff. right.
    apply bool_decide_eq_true, elem_of_dom. eauto. }
  rewrite Hex. unfold bind, read_file, lift, print, ret.
  cbn [files after_network]. rewrite Hfile. cbn.
  eexists _, _. split; [reflexivity|]. cbn. auto.
Qed.

Lemma makedirs_ok (p : list string) w w1 :
  makedirs p w = (Ok tt, w1) ->
  p ∈ dirs w1 /\ files w1 = files w /\ stdout w1 = stdout w.
Proof.
  unfold makedirs. destruct (_ && _ && _); [|discriminate].
  intros [= <-]. cbn [dirs files stdout]. repeat split.
  apply elem_of_union. right. apply elem_of_list_to_set, ancestors_self.
Qed.

(** A construction that fails at the client after it created the directory
    of the station leaves that directory behind. *)
Theorem init_client_failure env a w w1 st e :
  is_Some (to_datetime env (arg_start a)) ->
  is_Some (to_datetime env (arg_end a)) ->
  resolve_station env a = Ok st ->
  [arg_data_dir a; station_id st] ∉ dirs w ->
  makedirs [arg_data_dir a; station_id st] w = (Ok tt, w1) ->
  nldi_comid (nldi env (station_id st)) = Raise e ->
  (__init__ env a w).1 = Raise e /\
  [arg_data_dir a; station_id st] ∈ dirs (__init__ env a w).2 /\
  files (__init__ env a w).2 = files w /\
  stdout (__init__ env a w).2 = stdout w.
Proof.
  intros [t1 H1] [t2 H2] Hres Hdir Hmk Hid.
  assert (Hrun : __init__ env a w
                 = (Raise e,
                    {| dirs := dirs w1; files := files w1;
                       writable := writable w1; stdout := stdout w1;
                       nldi_calls :=
                         nldi_calls w1 ++ [CallComid (station_id st)] |})).
  { rewrite init_unfold, H1, H2, Hres. unfold construct, ensure_dir.
    unfold bind at 1. unfold bind at 1. unfold is_dir at 1.
    rewrite bool_decide_eq_false_2 by done. cbn [negb].
    unfold try_except. rewrite Hmk.
    unfold bind at 1. unfold get_watershed, bind at 1, remote at 1.
    by rewrite Hid. }
  rewrite Hrun. cbn [fst snd dirs files stdout].
  destruct (makedirs_ok _ _ _ Hmk) as (Hin & Hf & Hout).
  repeat split; done.
Qed.

(** ** More on the unit conversion *)

Lemma binary_round_aux_opp s m e :
  binary_round_aux prec emax (negb s) m e loc_Exact
  = SFopp (binary_round_aux prec emax s m e loc_Exact).
Proof.
  unfold binary_round_aux.
  destruct (shr_fexp prec emax m e loc_Exact) as [mrs' e'].
  destruct (shr_fexp prec emax _ e' loc_Exact) as [mrs'' e''].
  destruct (shr_m mrs'') as [|p|p]; [reflexivity| |reflexivity].
  destruct (e'' <=? emax - prec)%Z; reflexivity.
Qed.

(** The conversion is odd: an altitude below the datum converts to the
    opposite of the conversion of the same altitude above it, exactly. *)
Theorem ft_to_m_opp x : ft_to_m (- x) = (- ft_to_m x)%float.
Proof.
  apply Prim2SF_inj. unfold ft_to_m.
  rewrite opp_spec, !mul_spec, opp_spec.
  set (c := Prim2SF 0.3048). vm_compute in c. subst c.
  destruct (Prim2SF x) as [s|s| |s m e]; cbn [SFopp SF64mul SFmul];
    try reflexivity.
  - by destruct s.
  - by destruct s.
  - rewrite !xorb_false_r. apply binary_round_aux_opp.
Qed.


(** ** Witnesses of the further properties *)

Lemma rdb_rows_rdb_witness :
  rdb_rows frankford_text
  = List.filter (fun l => negb (is_comment l))
      (rdb_header ++
       [ ["USGS"; "01467087"; "Frankford Creek at Castor Ave"; "40.015944";
          "-75.097167"; "100"; "NAVD88"]; [""] ]).
Proof.
  apply (rdb_rows_rdb
           (rdb_header ++
            [ ["USGS"; "01467087"; "Frankford Creek at Castor Ave";
               "40.015944"; "-75.097167"; "100"; "NAVD88"]; [""] ])).
  - discriminate.
  - repeat (apply Forall_cons; split;
            [split; [discriminate|];
             repeat (apply Forall_cons; split; [split; reflexivity|]);
             apply Forall_nil; done|]).
    apply Forall_nil. done.
Defined.

Lemma get_coords_ok_inv_witness :
  station_id frankford_info = "01467087" /\
  exists text header row lon_s lat_s alt_s alt,
    session_get (sample_env frankford_text) (Sites "01467087") = Ok text /\
    rdb_rows text !! 0 = Some header /\
    rdb_rows text !! 2 = Some row /\
    dict_of (zip header row) !! "dec_long_va" = Some lon_s /\
    dict_of (zip header row) !! "dec_lat_va" = Some lat_s /\
    dict_of (zip header row) !! "alt_va" = Some alt_s /\
    decimal_float lon_s = Some (coords frankford_info).1 /\
    decimal_float lat_s = Some (coords frankford_info).2 /\
    decimal_float alt_s = Some alt /\
    altitude frankford_info = ft_to_m alt /\
    dict_of (zip header row) !! "alt_datum_cd" = Some (datum frankford_info) /\
    dict_of (zip header row) !! "station_nm" = Some (name frankford_info).
Proof.
  apply (get_coords_ok_inv (sample_env frankford_text) "01467087"
           frankford_info).
  vm_compute. reflexivity.
Defined.

Lemma get_coords_no_row_witness :
  get_coords (sample_env unknown_station_text) "00000000" = Raise IndexError.
Proof.
  apply (get_coords_no_row (sample_env unknown_station_text) "00000000"
           unknown_station_text).
  - reflexivity.
  - vm_compute. lia.
Defined.

Lemma get_coords_bad_altitude_witness :
  get_coords (sample_env no_altitude_text) "03" = Raise ValueError.
Proof.
  apply (get_coords_bad_altitude (sample_env no_altitude_text) "03"
           no_altitude_text
           ["agency_cd"; "site_no"; "station_nm"; "dec_lat_va"; "dec_long_va";
            "alt_va"; "alt_datum_cd"]
           ["USGS"; "03"; "No altitude"; "40.1"; "-75.0"; ""; "NAVD88"]
           "-75.0" "40.1" "");
    vm_compute; reflexivity.
Defined.

Lemma transport_failure_witness :
  get_coords offline_env "01467087" = Raise ConnectionError /\
  get_id offline_env (-75, 40)%float = Raise NameError.
Proof.
  apply (transport_failure offline_env "01467087" (-75, 40)%float
           ConnectionError ConnectionError); reflexivity.
Defined.

Lemma get_id_single_row_witness :
  exists text row,
    session_get (sample_env colocated_text) (search_box (-75, 40)%float)
    = Ok text /\
    row ∈ drop 2 (rdb_rows text) /\
    dict_of (zip (hd [] (rdb_rows text)) row) !! "site_no" = Some "02" /\
    dict_of (zip (hd [] (rdb_rows text)) row) !! "alt_va" <> Some "" /\
    station_of_row (sample_env colocated_text) "02"
      (hd [] (rdb_rows text)) row
    = Ok {| station_id := "02"; coords := (-75, 40)%float;
            altitude := ft_to_m 100; datum := "NAVD88";
            name := "Upper gauge" |}.
Proof.
  apply (get_id_single_row (sample_env colocated_text) (-75, 40)%float
           {| station_id := "02"; coords := (-75, 40)%float;
              altitude := ft_to_m 100; datum := "NAVD88";
              name := "Upper gauge" |}).
  vm_compute. reflexivity.
Defined.

Lemma get_id_get_coords_agree_witness :
  get_coords (sample_env frankford_text) "01467087" = Ok frankford_info.
Proof.
  destruct (get_id_get_coords_agree (sample_env frankford_text)
              (-75, 40)%float frankford_info)
    as (text & row & Hget & Hrow & Hid & Hagree).
  - vm_compute. reflexivity.
  - injection Hget as <-.
    apply (Hagree frankford_text); [reflexivity|vm_compute; reflexivity|].
    apply list_elem_of_In in Hrow. vm_compute in Hrow.
    destruct Hrow as [<-|[<-|[]]]; [vm_compute; reflexivity|].
    vm_compute in Hid. discriminate.
Defined.

Lemma get_id_bad_number_witness :
  get_id (sample_env bad_number_text) (-75, 40)%float = Raise ValueError.
Proof.
  apply (get_id_bad_number (sample_env bad_number_text) (-75, 40)%float
           bad_number_text bad_number_sites bad_number_record
           "dec_lat_va" "n/a").
  - reflexivity.
  - vm_compute. reflexivity.
  - repeat (apply Forall_cons; split; [vm_compute; reflexivity|]).
    apply Forall_nil. done.
  - apply list_elem_of_lookup. exists 1. vm_compute. reflexivity.
  - apply list_elem_of_In. cbn. tauto.
  - vm_compute. reflexivity.
  - reflexivity.
Defined.

Lemma sorted_rows_increasing : ids_increasing sorted_rows.
Proof.
  unfold ids_increasing. cbn.
  repeat (apply SSorted_cons;
          [|repeat (apply Forall_cons; split; [reflexivity|]);
            apply Forall_nil; done]).
  apply SSorted_nil.
Defined.

Lemma get_id_sorted_ties_witness :
  exists st,
    get_id (sample_env sorted_text) (-75, 40)%float = Ok st /\
    geom_equals (coords st) (-75, 40)%float = true /\
    forall k p, (k, p) ∈ sorted_rows ->
                geom_equals p (-75, 40)%float = true ->
                k = station_id st \/ String.ltb (station_id st) k = true.
Proof.
  apply (get_id_sorted_ties (sample_env sorted_text) (-75, 40)%float
           sorted_text sorted_sites sorted_rows (-75, 40)%float).
  - reflexivity.
  - vm_compute. reflexivity.
  - vm_compute. reflexivity.
  - exact sorted_rows_increasing.
  - vm_compute. reflexivity.
  - vm_compute. reflexivity.
  - vm_compute. reflexivity.
  - exists (-75, 40)%float. split; [left|reflexivity].
Defined.

Lemma watershed_empty_basin_witness :
  let run := get_watershed empty_basin_env "01467087" station_dir
               prepared_world in
  run.1 = Raise IndexError /\
  files run.2 = files prepared_world /\
  stdout run.2 = stdout prepared_world ++ [MsgDownloading "01467087"] /\
  nldi_calls run.2
  = nldi_calls prepared_world
      ++ network_calls "01467087" [1; 2; 2; 3]%Z ++ [CallBasin "01467087"].
Proof.
  apply (watershed_empty_basin empty_basin_env "01467087" station_dir
           prepared_world 4783213%Z [1; 2; 2; 3]%Z [1; 2]%Z
           (map_to_list (catchments sample_areas [1; 2; 2; 3]%Z)));
    reflexivity.
Defined.

Lemma init_resolution_failure_witness :
  __init__ (sample_env unknown_station_text) frankford_args fresh_world
  = (Raise IndexError, fresh_world).
Proof.
  apply (init_resolution_failure (sample_env unknown_station_text)
           frankford_args fresh_world IndexError).
  - by eexists.
  - by eexists.
  - vm_compute. reflexivity.
Defined.

Lemma init_ok_inv_witness :
  let w' := (__init__ (sample_env frankford_text) frankford_args
               fresh_world).2 in
  resolve_station (sample_env frankford_text) frankford_args
  = Ok frankford_info /\
  station_dir ∈ dirs w' /\
  exists gdf, files w' !! geom_path station_dir = Some gdf /\
              getitem gdf 0 = Ok square.
Proof.
  intros w'.
  destruct (init_ok_inv (sample_env frankford_text) frankford_args
              fresh_world frankford_station w')
    as (_ & Hres & _ & _ & _ & Hdir & Hfile).
  - vm_compute. reflexivity.
  - auto.
Defined.

Lemma init_cached_witness :
  exists s w',
    __init__ (sample_env frankford_text) frankford_args readonly_cached_world
    = (Ok s, w') /\
    info s = frankford_info /\ ws_geometry (watershed s) = square /\
    dirs w' = dirs readonly_cached_world /\
    files w' = files readonly_cached_world /\
    nldi_calls w'
    = nldi_calls readonly_cached_world
        ++ network_calls "01467087" [1; 2; 2; 3]%Z.
Proof.
  apply (init_cached (sample_env frankford_text) frankford_args
           readonly_cached_world frankford_info 4783213%Z [1; 2; 2; 3]%Z
           [1; 2]%Z (map_to_list (catchments sample_areas [1; 2; 2; 3]%Z))
           square []).
  - by eexists.
  - by eexists.
  - vm_compute. reflexivity.
  - vm_compute. reflexivity.
  - vm_compute. reflexivity.
  - reflexivity.
  - reflexivity.
  - reflexivity.
  - reflexivity.
Defined.

Lemma init_client_failure_witness :
  let run := __init__ no_network_env frankford_args fresh_world in
  run.1 = Raise Timeout /\
  station_dir ∈ dirs run.2 /\
  files run.2 = files fresh_world /\
  stdout run.2 = stdout fresh_world.
Proof.
  apply (init_client_failure no_network_env frankford_args fresh_world
           (makedirs station_dir fresh_world).2 frankford_info Timeout).
  - by eexists.
  - by eexists.
  - vm_compute. reflexivity.
  - vm_compute. discriminate.
  - reflexivity.
  - reflexivity.
Defined.

(** ** Answers without a candidate *)

Lemma filter_sites_raises text e :
  filter_sites text = Raise e -> e = AttributeError.
Proof.
  unfold filter_sites, drop_where_eq, getattr.
  destruct (decide _); cbn [rbind]; [discriminate|congruence].
Qed.

(** The records that [filter_sites] keeps are rows of strings with every
    column of the frame. *)
Lemma filter_sites_records text df :
  filter_sites text = Ok df ->
  Forall (fun r => exists d : gmap string string,
              r = Str <$> d /\ columns df ⊆ dom d) (records df).
Proof.
  unfold filter_sites, drop_where_eq, getattr.
  set (r_dict := _ <$> drop 2 (rdb_rows text)).
  destruct (decide _); cbn [rbind]; [|discriminate].
  intros [= <-]. cbn [columns records].
  apply Forall_forall. intros r Hr.
  apply list_elem_of_In, filter_In in Hr as [Hr _].
  apply list_elem_of_In in Hr. unfold dropna, from_dict in Hr.
  cbn [records columns] in Hr.
  apply list_elem_of_filter in Hr as [Hdom Hr].
  apply list_elem_of_fmap in Hr as (d & -> & _).
  exists d. split; [done|]. by rewrite dom_fmap_L in Hdom.
Qed.

(** A row of strings without both coordinates has a numeric column that
    does not read as a float. *)
Lemma no_coordinates_bad env (d : gmap string string) :
  py_float env "" = None ->
  "dec_lat_va" ∈ dom d -> "dec_long_va" ∈ dom d ->
  has_coordinates (Str <$> d) = false ->
  exists c, c ∈ numeric_columns /\
            float_of env (cell_at (Str <$> d) c) = Raise ValueError.
Proof.
  intros Hempty Hlat Hlon Hno.
  apply elem_of_dom in Hlat as [lat Hlat].
  apply elem_of_dom in Hlon as [lon Hlon].
  unfold has_coordinates in Hno. rewrite !lookup_fmap, Hlat, Hlon in Hno.
  cbn in Hno. apply andb_false_iff in Hno as [H|H];
    apply negb_false_iff, String.eqb_eq in H; subst.
  - exists "dec_lat_va". split; [apply list_elem_of_In; cbn; tauto|].
    unfold cell_at. rewrite lookup_fmap, Hlat. cbn. by rewrite Hempty.
  - exists "dec_long_va". split; [apply list_elem_of_In; cbn; tauto|].
    unfold cell_at. rewrite lookup_fmap, Hlon. cbn. by rewrite Hempty.
Qed.

(** C4, as the code has it. When no record of the box has all its fields, a
    non-empty altitude and both coordinates non-empty, and [float] rejects
    the empty string, [get_id] returns no station: it raises, and the
    exception is the one of the line that fails, [no_candidate_exn]:
    [AttributeError] when the frame has no [alt_va] column, [KeyError] when
    a numeric column or [site_no] is missing, [ValueError] when a kept
    record has an empty coordinate, and on an empty frame the exception of
    [nearest_points] on the empty geometry or else [IndexError]. The code
    has no exception of its own for this case. *)
Theorem get_id_no_candidate env point text :
  session_get env (search_box point) = Ok text ->
  py_float env "" = None ->
  (forall df, filter_sites text = Ok df ->
              Forall (fun r => has_coordinates r = false) (records df)) ->
  get_id env point = Raise (no_candidate_exn env point text).
Proof.
  intros Hget Hempty Hnone.
  unfold get_id, no_candidate_exn, read_sites. rewrite Hget. cbn [rbind].
  destruct (filter_sites text) as [df|e] eqn:Hdf; cbn [rbind].
  2: { by rewrite (filter_sites_raises _ _ Hdf). }
  specialize (Hnone df eq_refl).
  pose proof (filter_sites_records _ _ Hdf) as Hrec.
  unfold astype_float, check_cols.
  destruct (decide (Forall _ numeric_columns)) as [Hcols|]; cbn [rbind];
    [|done].
  destruct (records df) as [|r rs] eqn:Hrs.
  - cbn [mapM rbind]. unfold select_station, site_points, check_cols.
    cbn [columns records].
    destruct (decide _); cbn [rbind mapM]; [|done].
    cbn [odict fold_left fmap list_fmap].
    destruct (nearest_points env point []); cbn; done.
  - destruct (mapM _ (r :: rs)) as [rs'|e] eqn:Hm; cbn [rbind].
    + exfalso. destruct (mapM_lookup _ _ _ Hm) as [_ Hsrc].
      destruct (Hsrc 0 r eq_refl) as (r' & _ & Hconv).
      apply Forall_cons in Hnone as [Hno _].
      apply Forall_cons in Hrec as [(d & -> & Hdom) _].
      destruct (no_coordinates_bad env d Hempty) as (c & Hc & Hbad);
        [| |done|].
      * apply Hdom. eapply Forall_forall in Hcols; [exact Hcols|].
        apply list_elem_of_In. cbn. tauto.
      * apply Hdom. eapply Forall_forall in Hcols; [exact Hcols|].
        apply list_elem_of_In. cbn. tauto.
      * destruct (astype_rec_lookup _ _ _ _ Hconv c) as [Hin _].
        destruct (Hin Hc) as (f & _ & Hf). congruence.
    + apply mapM_raises in Hm as (a & _ & Ha).
      by rewrite (astype_rec_raises _ _ _ _ Ha).
Qed.

Lemma get_id_no_candidate_witness :
  get_id (sample_env no_latitude_text) (-75, 40)%float = Raise ValueError.
Proof.
  apply (get_id_no_candidate (sample_env no_latitude_text) (-75, 40)%float
           no_latitude_text).
  - reflexivity.
  - reflexivity.
  - intros df Hdf. vm_compute in Hdf. injection Hdf as <-.
    apply Forall_cons. split; [vm_compute; reflexivity|]. by apply Forall_nil.
Defined.

(** No one kind of error stands for a box without a valid candidate: the
    answer without a data row raises [AttributeError], the box whose records
    lack an altitude or a latitude raises [ValueError], and so does a box
    whose records all have coordinates and an altitude, one of them with a
    latitude that is not a number. *)
Lemma get_id_no_candidate_kinds :
  get_id (sample_env unknown_station_text) (-75, 40)%float
  = Raise AttributeError /\
  get_id (sample_env no_altitude_text) (-75, 40)%float = Raise ValueError /\
  get_id (sample_env no_latitude_text) (-75, 40)%float = Raise ValueError /\
  (let* df := filter_sites bad_number_text in
   Ok (forallb has_coordinates (records df), length (records df)))
  = Ok (true, 2) /\
  get_id (sample_env bad_number_text) (-75, 40)%float = Raise ValueError.
Proof. repeat split; vm_compute; reflexivity. Qed.

(** ** The sign of the altitude *)

(** Rounding a non-negative mantissa under a minus sign gives a float that
    is not positive. *)
Lemma binary_round_aux_nonpos m e :
  (0 <= m)%Z ->
  SFleb (binary_round_aux prec emax true m e loc_Exact) (S754_zero false)
  = true.
Proof.
  intros H. unfold binary_round_aux.
  pose proof (shr_fexp_nonneg m e loc_Exact H) as H1.
  destruct (shr_fexp prec emax m e loc_Exact) as [mrs' e']. cbn [fst] in H1.
  pose proof (shr_fexp_nonneg _ e' loc_Exact
                (round_nearest_even_nonneg _ (loc_of_shr_record mrs') H1))
    as H2.
  destruct (shr_fexp prec emax _ e' loc_Exact) as [mrs'' e''].
  cbn [fst] in H2.
  destruct (shr_m mrs'') as [|p|p]; [reflexivity| |lia].
  destruct (e'' <=? emax - prec)%Z; reflexivity.
Qed.

(** The conversion keeps an altitude that is not positive from becoming
    positive. *)
Lemma ft_to_m_nonpos x :
  (x <=? 0)%float = true -> (ft_to_m x <=? 0)%float = true.
Proof.
  unfold ft_to_m. rewrite !leb_spec, mul_spec.
  change (Prim2SF 0) with (S754_zero false).
  set (c := Prim2SF 0.3048). vm_compute in c. subst c.
  destruct (Prim2SF x) as [s|s| |s m e]; cbn.
  - intros _. destruct s; reflexivity.
  - destruct s; [reflexivity|discriminate].
  - discriminate.
  - destruct s; [|discriminate]. intros _.
    apply binary_round_aux_nonpos. lia.
Qed.

(** A record read from a row has the id asked for, and its altitude is the
    [alt_va] field of that row, read as a float and converted. *)
Lemma station_of_row_inv env sid header row st :
  station_of_row env sid header row = Ok st ->
  station_id st = sid /\
  exists alt_va alt_ft,
    dict_of (zip header row) !! "alt_va" = Some alt_va /\
    py_float env alt_va = Some alt_ft /\
    altitude st = ft_to_m alt_ft.
Proof.
  unfold station_of_row. set (station := dict_of (zip header row)).
  intros Hrun.
  destruct (dict_get station "dec_long_va"); [|discriminate].
  cbn [rbind] in Hrun.
  destruct (float_of env _); [|discriminate]. cbn [rbind] in Hrun.
  destruct (dict_get station "dec_lat_va"); [|discriminate].
  cbn [rbind] in Hrun.
  destruct (float_of env _); [|discriminate]. cbn [rbind] in Hrun.
  destruct (dict_get station "alt_va") as [alt_s|] eqn:Hs; [|discriminate].
  cbn [rbind] in Hrun.
  destruct (float_of env (Str alt_s)) as [alt|] eqn:Halt; [|discriminate].
  cbn [rbind] in Hrun.
  destruct (dict_get station "alt_datum_cd"); [|discriminate].
  cbn [rbind] in Hrun.
  destruct (dict_get station "station_nm"); [|discriminate].
  cbn [rbind] in Hrun. injection Hrun as <-. cbn [altitude station_id].
  split; [done|]. exists alt_s, alt.
  unfold dict_get in Hs.
  destruct (station !! "alt_va") as [s'|] eqn:Hd; [|discriminate].
  injection Hs as ->.
  cbn in Halt. destruct (py_float env alt_s) eqn:Hf; [|discriminate].
  injection Halt as ->. done.
Qed.

(** C7, as the code has it. A station resolved in either direction from the
    answer [text] is read from one data row of that answer under its header
    line: the third line when resolved by id, the row whose [site_no] is the
    id of the station when resolved by coordinates. Its altitude is the
    [alt_va] field of that very row, read as a float and multiplied by
    0.3048; it is non-negative whenever that field is non-negative and not
    positive whenever that field is not positive. Nothing else constrains
    its sign. *)
Theorem altitude_sign env dir text st :
  session_get env (query_of dir) = Ok text ->
  resolve env dir = Ok st ->
  exists header row alt_va alt_ft,
    rdb_rows text !! 0 = Some header /\
    row ∈ drop 2 (rdb_rows text) /\
    match dir with
    | ById sid => station_id st = sid /\ rdb_rows text !! 2 = Some row
    | ByCoords _ =>
        dict_of (zip header row) !! "site_no" = Some (station_id st)
    end /\
    station_of_row env (station_id st) header row = Ok st /\
    dict_of (zip header row) !! "alt_va" = Some alt_va /\
    py_float env alt_va = Some alt_ft /\
    altitude st = ft_to_m alt_ft /\
    ((0 <=? alt_ft)%float = true -> (0 <=? altitude st)%float = true) /\
    ((alt_ft <=? 0)%float = true -> (altitude st <=? 0)%float = true).
Proof.
  intros Hget Hrun.
  assert (Hrow : exists header row,
             rdb_rows text !! 0 = Some header /\
             row ∈ drop 2 (rdb_rows text) /\
             match dir with
             | ById sid =>
                 station_id st = sid /\ rdb_rows text !! 2 = Some row
             | ByCoords _ =>
                 dict_of (zip header row) !! "site_no" = Some (station_id st)
             end /\
             station_of_row env (station_id st) header row = Ok st).
  { destruct dir as [sid|point]; cbn [query_of resolve] in Hget, Hrun.
    - rewrite get_coords_unfold, Hget in Hrun. cbn [rbind] in Hrun.
      unfold getitem in Hrun.
      destruct (rdb_rows text !! 0) as [header|]; [|discriminate].
      cbn [rbind] in Hrun.
      destruct (rdb_rows text !! 2) as [row|] eqn:Hl; [|discriminate].
      cbn [rbind] in Hrun.
      destruct (station_of_row_inv _ _ _ _ _ Hrun) as [Hid _].
      exists header, row. rewrite Hid. repeat split; auto.
      apply list_elem_of_lookup. exists 0. by rewrite lookup_drop.
    - destruct (get_id_row _ _ _ Hrun)
        as (text' & row & lon_s & lat_s & alt_s & alt & Hget' & Hrow & Hid
            & Hlon & Hlonf & Hlat & Hlatf & Halt & Hne & Haltf & Ha & Hdm
            & Hnm).
      assert (text' = text) as -> by congruence.
      exists (hd [] (rdb_rows text)), row.
      split.
      { apply list_elem_of_lookup in Hrow as [i Hi].
        rewrite lookup_drop in Hi. by destruct (rdb_rows text). }
      split; [done|]. split; [done|].
      unfold station_of_row, dict_get, float_of.
      rewrite Hlon. cbn [rbind]. rewrite Hlonf. cbn [rbind].
      rewrite Hlat. cbn [rbind]. rewrite Hlatf. cbn [rbind].
      rewrite Halt. cbn [rbind]. rewrite Haltf. cbn [rbind].
      rewrite Hdm. cbn [rbind]. rewrite Hnm. cbn [rbind].
      destruct st as [sid [lon lat] a dm nm]. cbn in *. by subst a. }
  destruct Hrow as (header & row & Hh & Hr & Hdir & Hst).
  destruct (station_of_row_inv _ _ _ _ _ Hst)
    as (_ & alt_va & alt_ft & Hva & Hf & Halt).
  exists header, row, alt_va, alt_ft. rewrite Halt.
  repeat split; auto using ft_to_m_nonneg, ft_to_m_nonpos.
Qed.

Lemma altitude_sign_witness :
  exists header row alt_va alt_ft,
    rdb_rows below_datum_text !! 0 = Some header /\
    row ∈ drop 2 (rdb_rows below_datum_text) /\
    dict_of (zip header row) !! "site_no" = Some "10254005" /\
    station_of_row (sample_env below_datum_text) "10254005" header row
    = Ok {| station_id := "10254005"; coords := (-115.75, 33.25)%float;
            altitude := ft_to_m (-228); datum := "NGVD29";
            name := "Salton Sea near Westmorland" |} /\
    dict_of (zip header row) !! "alt_va" = Some alt_va /\
    decimal_float alt_va = Some alt_ft /\
    ft_to_m (-228) = ft_to_m alt_ft /\
    ((0 <=? alt_ft)%float = true -> (0 <=? ft_to_m (-228))%float = true) /\
    ((alt_ft <=? 0)%float = true -> (ft_to_m (-228) <=? 0)%float = true).
Proof.
  apply (altitude_sign (sample_env below_datum_text)
           (ByCoords (-115.7, 33.2)%float) below_datum_text
           {| station_id := "10254005"; coords := (-115.75, 33.25)%float;
              altitude := ft_to_m (-228); datum := "NGVD29";
              name := "Salton Sea near Westmorland" |});
    reflexivity.
Defined.
